(** * Dependency-injection and service-lifecycle core of the automata backend

    A shallow embedding of [backend/core/di] (container, singleton factory,
    service detector, interface manager, registry) and of
    [backend/core/services/base.py], with the properties of the design
    document proved about it.

    Conventions of the embedding.
    - A Python object is a reference [PyObj cls a]: the name of its class and
      its address.  [None] is [PyNone].  A new object takes the address
      [next_id] of the world, which is then incremented.
    - A type used as a dictionary key (a capability, [Type[T]]) is identified
      by its [__name__].
    - Code that may raise returns a [result]; [exn] stands for instances of
      subclasses of [Exception], the ones [except Exception] catches.
    - A callable of the program (a class, a factory function, an
      initialisation hook) is a function of the [world]; it does not reach
      back into the container or registry that calls it.
    - Calls to [logger] leave no trace in the state and are left out. *)

From stdpp Require Import gmap strings list fin_maps sorting.


(** ** Python values, exceptions and callables *)

Definition addr := nat.

Inductive value :=
  | PyNone
  | PyObj (cls : string) (a : addr).

Global Instance value_eq_dec : EqDecision value.
Proof. solve_decision. Defined.

Global Instance value_inhabited : Inhabited value := populate PyNone.

(** [type(v).__name__] *)
Definition type_name (v : value) : string :=
  match v with
  | PyNone => "NoneType"
  | PyObj cls _ => cls
  end.

Record exn := { exn_type : string; exn_msg : string }.

Global Instance exn_eq_dec : EqDecision exn.
Proof. solve_decision. Defined.

Definition ValueError (msg : string) : exn := {| exn_type := "ValueError"; exn_msg := msg |}.
Definition KeyError (msg : string) : exn := {| exn_type := "KeyError"; exn_msg := msg |}.
Definition ModuleNotFoundError (msg : string) : exn :=
  {| exn_type := "ModuleNotFoundError"; exn_msg := msg |}.

(** [isinstance(e, ImportError)]: [ModuleNotFoundError] is its one built-in
    subclass. *)
Definition is_ImportError (e : exn) : bool :=
  bool_decide (exn_type e = "ImportError" ∨ exn_type e = "ModuleNotFoundError").

Inductive result (A : Type) :=
  | Ok (x : A)
  | Raise (e : exn).
Arguments Ok {A} x.
Arguments Raise {A} e.

(** The part of the process state that arbitrary callables may read and
    change: the allocation counter, the wall clock read by [datetime.now()],
    and module-level attributes. *)
Record world := {
  next_id : addr;
  clock : nat;
  globals : gmap string value
}.

Definition callable (A : Type) : Type := world → result A * world.

(** Allocation of a new object: its address, and the world after it. *)
Definition allocate (w : world) : addr * world :=
  (next_id w, {| next_id := S (next_id w); clock := clock w; globals := globals w |}).

(** [cls()] for a class with a trivial constructor. *)
Definition new_object (cls : string) : callable value :=
  λ w, let '(a, w') := allocate w in (Ok (PyObj cls a), w').

(** A callable constructs when every call returns an object that did not
    exist before the call. *)
Definition constructs (f : callable value) : Prop :=
  ∀ w, ∃ cls a w', f w = (Ok (PyObj cls a), w') ∧ next_id w ≤ a < next_id w'.

(** Dictionary primitives: [k in d] and [d[k]]. *)
Definition contains {V} (d : gmap string V) (k : string) : bool :=
  bool_decide (is_Some (d !! k)).

Definition getitem {V} (d : gmap string V) (k : string) : result V :=
  match d !! k with
  | Some v => Ok v
  | None => Raise (KeyError k)
  end.

(** ** container.py *)

Module Container.

Record t := {
  _services : gmap string (callable value);
  _singletons : gmap string value;
  _factories : gmap string (callable value)
}.

Definition __init__ : t :=
  {| _services := ∅; _singletons := ∅; _factories := ∅ |}.

Definition register (interface : string) (implementation : callable value)
    (singleton : bool) (self : t) : t :=
  if singleton then
    {| _services := <[interface := implementation]> (_services self);
       _singletons := _singletons self;
       _factories := _factories self |}
  else
    {| _services := _services self;
       _singletons := _singletons self;
       _factories := <[interface := implementation]> (_factories self) |}.

Definition register_instance (interface : string) (instance : value) (self : t) : t :=
  {| _services := _services self;
     _singletons := <[interface := instance]> (_singletons self);
     _factories := _factories self |}.

Definition register_factory (interface : string) (factory : callable value)
    (self : t) : t :=
  {| _services := _services self;
     _singletons := _singletons self;
     _factories := <[interface := factory]> (_factories self) |}.

Definition not_registered (interface : string) : exn :=
  ValueError ("Service " +:+ interface +:+ " is not registered").

Definition resolve (interface : string) (self : t) (w : world)
    : result value * t * world :=
  if contains (_singletons self) interface then
    (getitem (_singletons self) interface, self, w)
  else if contains (_services self) interface then
    if negb (contains (_singletons self) interface) then
      match getitem (_services self) interface with
      | Ok implementation =>
          match implementation w with
          | (Ok v, w') =>
              let self' := register_instance interface v self in
              (getitem (_singletons self') interface, self', w')
          | (Raise e, w') => (Raise e, self, w')
          end
      | Raise e => (Raise e, self, w)
      end
    else (getitem (_singletons self) interface, self, w)
  else if contains (_factories self) interface then
    match getitem (_factories self) interface with
    | Ok factory => let '(r, w') := factory w in (r, self, w')
    | Raise e => (Raise e, self, w)
    end
  else (Raise (not_registered interface), self, w).

Definition is_registered (interface : string) (self : t) : bool :=
  contains (_services self) interface
  || contains (_singletons self) interface
  || contains (_factories self) interface.

Definition clear (self : t) : t :=
  {| _services := ∅; _singletons := ∅; _factories := ∅ |}.

(** The calls a client can make, to speak about "every subsequent call". *)
Inductive call :=
  | Register (interface : string) (implementation : callable value) (singleton : bool)
  | RegisterInstance (interface : string) (instance : value)
  | RegisterFactory (interface : string) (factory : callable value)
  | Resolve (interface : string)
  | IsRegistered (interface : string)
  | Clear.

Definition step (c : call) (st : t * world) : t * world :=
  match c with
  | Register i impl s => (register i impl s st.1, st.2)
  | RegisterInstance i x => (register_instance i x st.1, st.2)
  | RegisterFactory i f => (register_factory i f st.1, st.2)
  | Resolve i => let '(_, k, w) := resolve i st.1 st.2 in (k, w)
  | IsRegistered _ => st
  | Clear => (clear st.1, st.2)
  end.

Definition run (cs : list call) (st : t * world) : t * world :=
  foldl (λ s c, step c s) st cs.

(** Calls that rebind the instance table entry of [interface] by hand. *)
Definition rebinds (interface : string) (c : call) : bool :=
  match c with
  | RegisterInstance i _ => bool_decide (i = interface)
  | Clear => true
  | _ => false
  end.

End Container.

(** ** singleton_factory.py *)

Module SingletonFactory.

Record t := {
  _factory_func : callable value;
  _instance : value
}.

Definition __init__ (factory_func : callable value) : t :=
  {| _factory_func := factory_func; _instance := PyNone |}.

Definition get_instance (self : t) (w : world) : result value * t * world :=
  match _instance self with
  | PyNone =>
      match _factory_func self w with
      | (Ok v, w') => (Ok v, {| _factory_func := _factory_func self; _instance := v |}, w')
      | (Raise e, w') => (Raise e, self, w')
      end
  | v => (Ok v, self, w)
  end.

Definition reset_instance (self : t) : t :=
  {| _factory_func := _factory_func self; _instance := PyNone |}.

Global Instance inhabited : Inhabited t := populate (__init__ (λ w, (Ok PyNone, w))).

End SingletonFactory.

Module SingletonRegistry.

(** Factory objects are mutable and are held by reference: the registry maps a
    name to the address of a factory object, and the factory objects live in
    a store.  Two names may refer to one factory object. *)
Abbreviation store := (gmap addr SingletonFactory.t).

Record t := { _factories : gmap string addr }.

Definition __init__ : t := {| _factories := ∅ |}.

Definition register_factory (name : string) (factory : addr) (self : t) : t :=
  {| _factories := <[name := factory]> (_factories self) |}.

Definition not_registered (name : string) : exn :=
  KeyError ("Singleton factory '" +:+ name +:+ "' not registered").

Definition get_instance (name : string) (self : t) (h : store) (w : world)
    : result value * store * world :=
  if negb (contains (_factories self) name) then (Raise (not_registered name), h, w)
  else
    match getitem (_factories self) name with
    | Ok factory =>
        let '(r, f', w') := SingletonFactory.get_instance (h !!! factory) w in
        (r, <[factory := f']> h, w')
    | Raise e => (Raise e, h, w)
    end.

Definition reset_instance (name : string) (self : t) (h : store) : store :=
  if contains (_factories self) name then
    match getitem (_factories self) name with
    | Ok factory => <[factory := SingletonFactory.reset_instance (h !!! factory)]> h
    | Raise _ => h
    end
  else h.

Definition reset_all (self : t) (h : store) : store :=
  foldr (λ factory h, <[factory := SingletonFactory.reset_instance (h !!! factory)]> h)
        h (map_to_list (_factories self)).*2.

(** [create_singleton_factory(factory_func)]: a new factory object. *)
Definition create_singleton_factory (factory_func : callable value)
    (h : store) (w : world) : addr * store * world :=
  let '(a, w') := allocate w in
  (a, <[a := SingletonFactory.__init__ factory_func]> h, w').

End SingletonRegistry.

(** ** services/base.py *)

Definition ascii_lower (c : Ascii.ascii) : Ascii.ascii :=
  let n := Ascii.nat_of_ascii c in
  if (65 <=? n) && (n <=? 90) then Ascii.ascii_of_nat (n + 32) else c.

(** [str.lower()], on the ASCII letters class names are made of. *)
Fixpoint lower (s : string) : string :=
  match s with
  | EmptyString => EmptyString
  | String c s' => String (ascii_lower c) (lower s')
  end.

Definition startswith (s p : string) : bool := String.prefix p s.

Definition endswith (s p : string) : bool :=
  (String.length p <=? String.length s)
  && bool_decide (String.substring (String.length s - String.length p) (String.length p) s = p).

Module BaseService.

Record t := {
  _feature_name : string;
  _is_initialized : bool
}.

(** [class_name] is [self.__class__.__name__]. *)
Definition _derive_feature_name (class_name : string) : string :=
  let class_name :=
    if endswith class_name "Service"
    then String.substring 0 (String.length class_name - 7) class_name
    else class_name in
  lower class_name.

Definition __init__ (class_name : string) (feature_name : option string) : t :=
  {| _feature_name :=
       match feature_name with
       | Some n => if bool_decide (n = "") then _derive_feature_name class_name else n
       | None => _derive_feature_name class_name
       end;
     _is_initialized := false |}.

Definition feature_name (self : t) : string := _feature_name self.

Definition is_initialized (self : t) : bool := _is_initialized self.

(** [_initialize_specific] is the hook a feature overrides; the base one is
    [pass]. *)
Definition _initialize_specific : callable unit := λ w, (Ok (), w).

Definition initialize (_initialize_specific : callable unit) (self : t) (w : world)
    : result bool * t * world :=
  match _initialize_specific w with
  | (Ok _, w') =>
      (Ok true, {| _feature_name := _feature_name self; _is_initialized := true |}, w')
  | (Raise e, w') => (Ok false, self, w')
  end.

End BaseService.

(** ** Classes and module namespaces *)

(** A class as an object: its name and, when it has the attribute, its set of
    abstract method names. *)
Record pytype := {
  __name__ : string;
  __abstractmethods__ : option (list string)
}.

(** A class declared in a feature module.  [construct] is the call
    [service_class()]: the state the constructor leaves in the new instance,
    or the exception it raises.  [initialize] is the method the instance
    answers to; a class that does not override it gets
    [BaseService.initialize] with its own hook. *)
Record pyclass := {
  cls_type : pytype;
  __bases__ : list pytype;
  __mro__ : list pytype;
  _service_name : option string;
  __interfaces__ : option (list pytype);
  construct : callable BaseService.t;
  initialize : BaseService.t → world → result bool * BaseService.t * world
}.

Inductive member :=
  | MClass (c : pyclass)
  | MOther (v : value).

(** The attributes of a module, in the order of their definition. *)
Abbreviation namespace := (list (string * member)).

Definition isclass (obj : member) : bool :=
  match obj with MClass _ => true | MOther _ => false end.

Definition name_le (x y : string * member) : Prop := String.le x.1 y.1.

Global Instance name_le_dec : RelDecision name_le.
Proof. intros x y. unfold name_le. apply _. Defined.

Global Instance name_le_trans : Transitive name_le.
Proof. intros x y z. unfold name_le. apply transitivity. Qed.

Global Instance name_le_total : Total name_le.
Proof. intros x y. unfold name_le. apply total, _. Qed.

(** [inspect.getmembers(module, predicate)]: the members that satisfy the
    predicate as (name, value) pairs sorted by name. *)
Definition getmembers (module : namespace) (predicate : member → bool)
    : list (string * member) :=
  merge_sort name_le (filter (λ x, predicate x.2 = true) module).

(** ** service_detector.py *)

Module BaseServiceDetector.

Definition _inherits_from_base_service (obj : pyclass) : bool :=
  bool_decide ("BaseService" ∈ __name__ <$> __mro__ obj).

Definition _is_not_base_service_itself (obj : pyclass) : bool :=
  negb (bool_decide (__name__ (cls_type obj) = "BaseService")).

Definition _has_service_name_attribute (obj : pyclass) : bool :=
  bool_decide (is_Some (_service_name obj)).

Definition _service_criteria : list (pyclass → bool) :=
  [ _inherits_from_base_service;
    _is_not_base_service_itself;
    _has_service_name_attribute ].

Definition is_service_class (obj : member) : bool :=
  match obj with
  | MOther _ => false
  | MClass c => forallb (λ criterion, criterion c) _service_criteria
  end.

Definition get_service_classes (module : namespace) : list pyclass :=
  foldl (λ service_classes '(name, obj),
           if is_service_class obj then
             match obj with
             | MClass c => service_classes ++ [c]
             | MOther _ => service_classes
             end
           else service_classes)
        [] (getmembers module isclass).

End BaseServiceDetector.

(** ** interface_manager.py *)

Module IContainer.

(** The abstract container: any of its methods may raise. *)
Class t (K : Type) := {
  register : string → callable value → bool → K → result unit * K;
  register_instance : string → value → K → result unit * K;
  resolve : string → K → world → result value * K * world;
  is_registered : string → K → result bool * K
}.

End IContainer.

Global Instance Container_IContainer : IContainer.t Container.t := {|
  IContainer.register i impl s k := (Ok (), Container.register i impl s k);
  IContainer.register_instance i x k := (Ok (), Container.register_instance i x k);
  IContainer.resolve := Container.resolve;
  IContainer.is_registered i k := (Ok (Container.is_registered i k), k)
|}.

Module AbstractMethodInterfaceStrategy.

Definition has_abstract_methods (class_type : pytype) : bool :=
  match __abstractmethods__ class_type with
  | Some (_ :: _) => true
  | _ => false
  end.

Definition _is_interface (class_type : pytype) : bool :=
  has_abstract_methods class_type
  && negb (bool_decide (__name__ class_type = "BaseService")).

Definition _follows_interface_naming_convention (class_type : pytype) : bool :=
  let name := __name__ class_type in
  startswith name "I" && (endswith name "Service" || (1 <? String.length name)).

Definition _is_interface_in_mro (class_type : pytype) : bool :=
  has_abstract_methods class_type
  && negb (bool_decide (__name__ class_type = "BaseService"))
  && _follows_interface_naming_convention class_type.

Definition get_interfaces (service_class : pyclass) : result (list pytype) :=
  Ok (filter (λ c, _is_interface c = true) (__bases__ service_class)
      ++ filter (λ c, _is_interface_in_mro c = true) (__mro__ service_class)).

End AbstractMethodInterfaceStrategy.

Module AnnotationInterfaceStrategy.

Definition get_interfaces (service_class : pyclass) : result (list pytype) :=
  match __interfaces__ service_class with
  | Some interfaces => Ok interfaces
  | None => Ok []
  end.

End AnnotationInterfaceStrategy.

Module InterfaceRegistrationManager.

Section Manager.
Context {K : Type} `{!IContainer.t K}.

(** [InterfaceDetectionStrategy.get_interfaces] of [self._detection_strategy] *)
Variable _detection_strategy : pyclass → result (list pytype).

Definition _register_single_interface (interface : pytype) (service_instance : value)
    (container : K) : bool * K :=
  match IContainer.register_instance (__name__ interface) service_instance container with
  | (Ok _, container') => (true, container')
  | (Raise e, container') => (false, container')
  end.

(** The [for interface in interfaces] loop, with [success_count] carried. *)
Fixpoint register_loop (interfaces : list pytype) (service_instance : value)
    (success_count : nat) (container : K) : nat * K :=
  match interfaces with
  | [] => (success_count, container)
  | interface :: rest =>
      let '(ok, container') :=
        _register_single_interface interface service_instance container in
      register_loop rest service_instance
        (if ok then success_count + 1 else success_count) container'
  end.

Definition register_service_interfaces (service_class : pyclass)
    (service_instance : value) (container : K) : bool * K :=
  match _detection_strategy service_class with
  | Ok interfaces =>
      let '(success_count, container') :=
        register_loop interfaces service_instance 0 container in
      (match interfaces with
       | [] => true
       | _ => success_count =? length interfaces
       end, container')
  | Raise e => (false, container)
  end.

(** What each iteration of the loop reported, in order. *)
Fixpoint outcomes (interfaces : list pytype) (service_instance : value)
    (container : K) : list bool :=
  match interfaces with
  | [] => []
  | interface :: rest =>
      let '(ok, container') :=
        _register_single_interface interface service_instance container in
      ok :: outcomes rest service_instance container'
  end.

End Manager.

End InterfaceRegistrationManager.

(** A container for tests: a [Container] subclass whose [register_instance]
    raises for the capabilities listed in [rejected]. *)
Module RejectingContainer.

Record t := {
  rejected : list string;
  inner : Container.t
}.

Definition register_instance (interface : string) (instance : value) (self : t)
    : result unit * t :=
  if bool_decide (interface ∈ rejected self)
  then (Raise (ValueError ("cannot register " +:+ interface)), self)
  else (Ok (), {| rejected := rejected self;
                  inner := Container.register_instance interface instance (inner self) |}).

Definition resolve (interface : string) (self : t) (w : world)
    : result value * t * world :=
  let '(r, k, w') := Container.resolve interface (inner self) w in
  (r, {| rejected := rejected self; inner := k |}, w').

End RejectingContainer.

Global Instance RejectingContainer_IContainer : IContainer.t RejectingContainer.t := {|
  IContainer.register i impl s k :=
    (Ok (), {| RejectingContainer.rejected := RejectingContainer.rejected k;
               RejectingContainer.inner :=
                 Container.register i impl s (RejectingContainer.inner k) |});
  IContainer.register_instance := RejectingContainer.register_instance;
  IContainer.resolve := RejectingContainer.resolve;
  IContainer.is_registered i k :=
    (Ok (Container.is_registered i (RejectingContainer.inner k)), k)
|}.

(** ** registry.py *)

(** A [dict] whose key order is observed: pairs in insertion order, one per
    key.  Assigning to a key that is present keeps its position. *)
Fixpoint dict_setitem {V} (k : string) (v : V) (d : list (string * V))
    : list (string * V) :=
  match d with
  | [] => [(k, v)]
  | (k', v') :: d' =>
      if bool_decide (k' = k) then (k, v) :: d' else (k', v') :: dict_setitem k v d'
  end.

Fixpoint dict_get {V} (k : string) (d : list (string * V)) : option V :=
  match d with
  | [] => None
  | (k', v') :: d' => if bool_decide (k' = k) then Some v' else dict_get k d'
  end.

Definition dict_keys {V} (d : list (string * V)) : list string := d.*1.

Module ServiceRegistry.

Record t := {
  _services : list (string * value);
  _container : Container.t
}.

(** [container] is what [get_container()] returns. *)
Definition __init__ (container : Container.t) : t :=
  {| _services := []; _container := container |}.

Definition register_service (service_name : string) (service_instance : value)
    (self : t) : bool * t :=
  (true,
   {| _services := dict_setitem service_name service_instance (_services self);
      _container := Container.register_instance (type_name service_instance)
                      service_instance (_container self) |}).

Definition get_service (service_name : string) (self : t) : value :=
  default PyNone (dict_get service_name (_services self)).

Definition get_all_services (self : t) : list (string * value) := _services self.

Definition service_exists (service_name : string) (self : t) : bool :=
  bool_decide (is_Some (dict_get service_name (_services self))).

Definition clear (self : t) : t :=
  {| _services := []; _container := _container self |}.

End ServiceRegistry.

(** What [importlib.import_module] finds for a module name: the module, or
    the exception its import raises.  A name that is not listed is a module
    that does not exist. *)
Inductive import_outcome :=
  | Imported (module : namespace)
  | ImportRaises (e : exn).

Abbreviation import_env := (gmap string import_outcome).

Definition import_module (env : import_env) (name : string) : result namespace :=
  match env !! name with
  | Some (Imported module) => Ok module
  | Some (ImportRaises e) => Raise e
  | None => Raise (ModuleNotFoundError ("No module named '" +:+ name +:+ "'"))
  end.

Module ServiceConstants.
Definition SERVICE_MODULE_NAME : string := "service".
Definition ROUTES_MODULE_NAME : string := "routes".
End ServiceConstants.

Module RouteManager.

(** [setup_routes] has its whole body under [try ... except Exception] and
    returns nothing: it is given by what instantiating the route classes does
    to the container and to the world. *)
Record t := {
  setup_routes : string → string → value → Container.t → world → Container.t * world
}.

End RouteManager.

(** The state the discovery pipeline works on: the process-wide service
    registry, the service instances it has built, and the world. *)
Record state := {
  registry : ServiceRegistry.t;
  objects : gmap addr BaseService.t;
  the_world : world
}.

Module ServiceDiscovery.

Record t := {
  _service_detector : namespace → result (list pyclass);
  _interface_manager : pyclass → value → Container.t → result bool * Container.t;
  _route_manager : RouteManager.t
}.

(** [ServiceDiscovery(registry)] with the default detector and interface
    manager. *)
Definition __init__ (route_manager : RouteManager.t) : t :=
  {| _service_detector := λ module, Ok (BaseServiceDetector.get_service_classes module);
     _interface_manager := λ service_class service_instance container,
       let '(ok, container') :=
         InterfaceRegistrationManager.register_service_interfaces
           AbstractMethodInterfaceStrategy.get_interfaces
           service_class service_instance container in
       (Ok ok, container');
     _route_manager := route_manager |}.

Definition _load_service_module (env : import_env) (module_path : string)
    : result (option namespace) :=
  match import_module env (module_path +:+ "." +:+ ServiceConstants.SERVICE_MODULE_NAME) with
  | Ok module => Ok (Some module)
  | Raise e => if is_ImportError e then Ok None else Raise e
  end.

Definition _register_service_class (self : t) (service_class : pyclass)
    (module_path : string) (st : state) : bool * state :=
  match construct service_class (the_world st) with
  | (Raise e, w1) =>
      (false, {| registry := registry st; objects := objects st; the_world := w1 |})
  | (Ok obj, w1) =>
      let '(a, w2) := allocate w1 in
      let service_instance := PyObj (__name__ (cls_type service_class)) a in
      match initialize service_class obj w2 with
      | (Ok true, obj', w3) =>
          let objs := <[a := obj']> (objects st) in
          match _service_name service_class with
          | None => (false, {| registry := registry st; objects := objs; the_world := w3 |})
          | Some service_name =>
              let '(ok, reg) :=
                ServiceRegistry.register_service service_name service_instance
                  (registry st) in
              if negb ok then
                (false, {| registry := reg; objects := objs; the_world := w3 |})
              else
                match _interface_manager self service_class service_instance
                        (ServiceRegistry._container reg) with
                | (Raise e, k) =>
                    (false,
                     {| registry := {| ServiceRegistry._services :=
                                         ServiceRegistry._services reg;
                                       ServiceRegistry._container := k |};
                        objects := objs; the_world := w3 |})
                | (Ok _, k) =>
                    let '(k', w4) :=
                      RouteManager.setup_routes (_route_manager self)
                        module_path service_name service_instance k w3 in
                    (true,
                     {| registry := {| ServiceRegistry._services :=
                                         ServiceRegistry._services reg;
                                       ServiceRegistry._container := k' |};
                        objects := objs; the_world := w4 |})
                end
          end
      | (_, obj', w3) =>
          (false, {| registry := registry st;
                     objects := <[a := obj']> (objects st); the_world := w3 |})
      end
  end.

(** The [for service_class in service_classes] loop. *)
Fixpoint register_service_classes (self : t) (service_classes : list pyclass)
    (module_path : string) (st : state) : bool * state :=
  match service_classes with
  | [] => (true, st)
  | service_class :: rest =>
      let '(ok, st') := _register_service_class self service_class module_path st in
      if negb ok then (false, st')
      else register_service_classes self rest module_path st'
  end.

Definition discover_and_register_services (self : t) (env : import_env)
    (module_path : string) (st : state) : bool * state :=
  match _load_service_module env module_path with
  | Raise e => (false, st)
  | Ok None => (true, st)
  | Ok (Some service_module) =>
      match _service_detector self service_module with
      | Raise e => (false, st)
      | Ok service_classes =>
          register_service_classes self service_classes module_path st
      end
  end.

End ServiceDiscovery.

Definition auto_discover_services (env : import_env) (route_manager : RouteManager.t)
    (module_path : string) (st : state) : bool * state :=
  ServiceDiscovery.discover_and_register_services
    (ServiceDiscovery.__init__ route_manager) env module_path st.

Module FeatureManager.

(** A record of [_features]; [registered_at] is the clock reading that
    [datetime.now().isoformat()] prints. *)
Record feature := {
  module_path : string;
  status : string;
  registered_at : nat
}.

Record t := { _features : gmap string feature }.

Definition __init__ : t := {| _features := ∅ |}.

Fixpoint register_features (env : import_env) (route_manager : RouteManager.t)
    (feature_modules : list (string * string)) (self : t) (st : state)
    : bool * t * state :=
  match feature_modules with
  | [] => (true, self, st)
  | (feature_name, module_path) :: rest =>
      let '(ok, st') := auto_discover_services env route_manager module_path st in
      if ok then
        register_features env route_manager rest
          {| _features :=
               <[feature_name := {| module_path := module_path;
                                    status := "active";
                                    registered_at := clock (the_world st') |}]>
                 (_features self) |}
          st'
      else (false, self, st')
  end.

Record features_status := {
  total_features : nat;
  features : gmap string feature;
  services : list string
}.

Definition get_features_status (self : t) (st : state) : features_status :=
  {| total_features := size (_features self);
     features := _features self;
     services := dict_keys (ServiceRegistry.get_all_services (registry st)) |}.

End FeatureManager.

(** ** Declaring services *)

Definition is_upper (c : Ascii.ascii) : bool :=
  let n := Ascii.nat_of_ascii c in (65 <=? n) && (n <=? 90).

Definition is_lower_or_digit (c : Ascii.ascii) : bool :=
  let n := Ascii.nat_of_ascii c in
  ((97 <=? n) && (n <=? 122)) || ((48 <=? n) && (n <=? 57)).

(** [re.sub('([a-z0-9])([A-Z])', r'\1_\2', s)]: an underscore goes between a
    lower-case letter or digit and the upper-case letter that follows it. *)
Fixpoint insert_underscores (after_lower : bool) (s : string) : string :=
  match s with
  | EmptyString => EmptyString
  | String c s' =>
      let rest := String c (insert_underscores (is_lower_or_digit c) s') in
      if after_lower && is_upper c then "_" +:+ rest else rest
  end.

Definition _camel_to_snake (camel_str : string) : string :=
  lower (insert_underscores false camel_str).

(** The decorator [@Service(name)]. *)
Definition Service (name : option string) (service_class : pyclass) : pyclass :=
  let service_name :=
    match name with
    | Some n => if bool_decide (n = "") then _camel_to_snake (__name__ (cls_type service_class))
                else n
    | None => _camel_to_snake (__name__ (cls_type service_class))
    end in
  {| cls_type := cls_type service_class;
     __bases__ := __bases__ service_class;
     __mro__ := __mro__ service_class;
     _service_name := Some service_name;
     __interfaces__ := __interfaces__ service_class;
     construct := construct service_class;
     initialize := initialize service_class |}.

Definition object_type : pytype :=
  {| __name__ := "object"; __abstractmethods__ := None |}.
Definition ABC_type : pytype :=
  {| __name__ := "ABC"; __abstractmethods__ := Some [] |}.
Definition IService_type : pytype :=
  {| __name__ := "IService";
     __abstractmethods__ := Some ["feature_name"; "initialize"; "is_initialized"] |}.
Definition BaseService_type : pytype :=
  {| __name__ := "BaseService"; __abstractmethods__ := Some [] |}.

(** [class BaseService(IService)] itself. *)
Definition BaseService_class : pyclass :=
  {| cls_type := BaseService_type;
     __bases__ := [IService_type];
     __mro__ := [BaseService_type; IService_type; ABC_type; object_type];
     _service_name := None;
     __interfaces__ := None;
     construct := λ w, (Ok (BaseService.__init__ "BaseService" None), w);
     initialize := BaseService.initialize BaseService._initialize_specific |}.

(** [class name(BaseService, *interfaces)] with the given hook and no
    constructor of its own. *)
Definition derived_service (name : string) (interfaces : list pytype)
    (_initialize_specific : callable unit) : pyclass :=
  {| cls_type := {| __name__ := name; __abstractmethods__ := Some [] |};
     __bases__ := BaseService_type :: interfaces;
     __mro__ := {| __name__ := name; __abstractmethods__ := Some [] |}
                :: BaseService_type :: IService_type :: interfaces
                ++ [ABC_type; object_type];
     _service_name := None;
     __interfaces__ := None;
     construct := λ w, (Ok (BaseService.__init__ name None), w);
     initialize := BaseService.initialize _initialize_specific |}.

(** ** Auxiliary notions used by the statements *)

(** [n] calls of [initialize()] on one service, with what each returned. *)
Fixpoint initialize_calls (hook : callable unit) (n : nat) (self : BaseService.t)
    (w : world) : list (result bool) * BaseService.t * world :=
  match n with
  | 0 => ([], self, w)
  | S n' =>
      let '(r, self', w') := BaseService.initialize hook self w in
      let '(rs, self'', w'') := initialize_calls hook n' self' w' in
      (r :: rs, self'', w'')
  end.

(** An object that exists has an address below the allocation counter. *)
Definition allocated (w : world) (v : value) : Prop :=
  match v with
  | PyNone => True
  | PyObj _ a => a < next_id w
  end.

Definition class_names (l : list pyclass) : list string :=
  (λ c, __name__ (cls_type c)) <$> l.

(** The class a member stands for, if it is a service class. *)
Definition as_service_class (x : string * member) : option pyclass :=
  match x.2 with
  | MClass c => if BaseServiceDetector.is_service_class x.2 then Some c else None
  | MOther _ => None
  end.

(** The design document's reading of [get_service_classes]: the qualifying
    classes in the order the module declares them. *)
Definition service_classes_in_declaration_order (module : namespace) : list pyclass :=
  omap as_service_class module.

(** A container resolves [c] to [x] when [resolve(c)] returns [x]. *)
Definition resolves {K : Type} `{!IContainer.t K} (container : K) (c : string)
    (x : value) : Prop :=
  ∀ w, (IContainer.resolve c container w).1.1 = Ok x.

(** The number of iterations that reported success. *)
Definition successes (outs : list bool) : nat :=
  length (filter (λ b, b = true) outs).

(** ** Example inputs *)

Definition w0 : world := {| next_id := 0; clock := 0; globals := ∅ |}.

(** A container with a singleton class for [IHealthService], a factory for
    [IClock] and nothing else. *)
Definition example_container : Container.t :=
  Container.register_factory "IClock" (new_object "Clock")
    (Container.register "IHealthService" (new_object "HealthService") true
       Container.__init__).

(** The singleton registry as [container.py] sets it up: one factory,
    registered under the name "container". *)
Definition example_singletons : SingletonRegistry.t * SingletonRegistry.store * world :=
  let '(factory, h, w) :=
    SingletonRegistry.create_singleton_factory (new_object "Container") ∅ w0 in
  (SingletonRegistry.register_factory "container" factory SingletonRegistry.__init__, h, w).

Definition failing_hook : callable unit :=
  λ w, (Raise (ValueError "initialisation failed"), w).

(** A feature module that declares [ZooService] before [AppService]. *)
Definition example_module : namespace :=
  [ ("BaseService", MClass BaseService_class);
    ("Service", MOther (PyObj "function" 0));
    ("ZooService",
     MClass (Service (Some "zoo")
               (derived_service "ZooService" [] BaseService._initialize_specific)));
    ("AppService",
     MClass (Service (Some "app")
               (derived_service "AppService" [] BaseService._initialize_specific)));
    ("Helper", MClass (derived_service "Helper" [] BaseService._initialize_specific)) ].

Definition IHealthService_type : pytype :=
  {| __name__ := "IHealthService";
     __abstractmethods__ :=
       Some ["get_health_status"; "get_quick_status"; "get_system_info";
             "is_initialized"] |}.

Definition IDiagnostics_type : pytype :=
  {| __name__ := "IDiagnostics"; __abstractmethods__ := Some ["diagnose"] |}.

(** [@Service("health") class HealthService(BaseService, IHealthService,
    IDiagnostics)] *)
Definition HealthService_class : pyclass :=
  Service (Some "health")
    (derived_service "HealthService" [IHealthService_type; IDiagnostics_type]
       BaseService._initialize_specific).

(** A container that refuses [IDiagnostics]. *)
Definition example_rejecting : RejectingContainer.t :=
  {| RejectingContainer.rejected := ["IDiagnostics"];
     RejectingContainer.inner := Container.__init__ |}.

(** A route manager for features without a routes module. *)
Definition no_routes : RouteManager.t :=
  {| RouteManager.setup_routes := λ _ _ _ container w, (container, w) |}.

Definition initial_state : state :=
  {| registry := ServiceRegistry.__init__ Container.__init__;
     objects := ∅;
     the_world := w0 |}.

(** A feature with two services; the second one fails to initialise. *)
Definition demo_module : namespace :=
  [ ("AlphaService",
     MClass (Service (Some "alpha")
               (derived_service "AlphaService" [] BaseService._initialize_specific)));
    ("BetaService",
     MClass (Service (Some "beta")
               (derived_service "BetaService" [] failing_hook))) ].

(** A feature whose only service fails to initialise. *)
Definition broken_module : namespace :=
  [ ("BrokenService",
     MClass (Service (Some "broken")
               (derived_service "BrokenService" [] failing_hook))) ].

Definition example_env : import_env :=
  {[ "features.demo.service" := Imported demo_module;
     "features.broken.service" := Imported broken_module;
     "features.health.service" :=
       Imported [("HealthService", MClass HealthService_class)] ]}.

(** ** BaseService.validate_input *)

(** The data handed to [validate_input]: the built-in values it is used on,
    and instances of user classes given by the names of their class and
    ancestors. *)
#[local] Unset Elimination Schemes.
#[local] Set Elimination Schemes.





Module ValidationConstants.
End ValidationConstants.


(** ** app/application.py *)

Module Application.

(** The feature manager and the Eel configurator are collaborators: the
    feature manager is the [FeatureManager.t] passed along, and
    [configure_eel] is the method of the configurator, which may raise. *)
Record t := {
  _settings : value;
  _is_initialized : bool
}.

Definition __init__ (settings : value) : t :=
  {| _settings := settings; _is_initialized := false |}.

Definition is_initialized (self : t) : bool := _is_initialized self.

(** The part of [start] after the registration of the features. *)
Definition configure_and_flag (configure_eel : value → callable unit) (self : t)
    (fm : FeatureManager.t) (st : state) : bool * t * FeatureManager.t * state :=
  match configure_eel (_settings self) (the_world st) with
  | (Ok _, w') =>
      (true, {| _settings := _settings self; _is_initialized := true |}, fm,
       {| registry := registry st; objects := objects st; the_world := w' |})
  | (Raise e, w') =>
      (false, self, fm,
       {| registry := registry st; objects := objects st; the_world := w' |})
  end.

Definition start (env : import_env) (route_manager : RouteManager.t)
    (configure_eel : value → callable unit)
    (feature_modules : option (list (string * string)))
    (self : t) (fm : FeatureManager.t) (st : state)
    : bool * t * FeatureManager.t * state :=
  match feature_modules with
  | Some (feature :: others) =>
      let '(ok, fm', st') :=
        FeatureManager.register_features env route_manager (feature :: others) fm st in
      if negb ok then (false, self, fm', st')
      else configure_and_flag configure_eel self fm' st'
  | _ => configure_and_flag configure_eel self fm st
  end.

Record status := {
  features_status : FeatureManager.features_status;
  initialized : bool;
  settings_loaded : bool
}.

Definition get_status (self : t) (fm : FeatureManager.t) (st : state) : status :=
  {| features_status := FeatureManager.get_features_status fm st;
     initialized := _is_initialized self;
     settings_loaded := negb (bool_decide (_settings self = PyNone)) |}.

End Application.

(** ** web/routes.py: service injection *)

Module BaseRoutes.

Record t := { _services : gmap string value }.

(** [is_initialized] reads the attribute of that name on the resolved
    object; it raises when the object has none.  The container is the
    process-wide one. *)
Definition _inject_service (is_initialized : value → result bool)
    (service_type service_name : string) (self : t) (container : Container.t)
    (w : world) : value * t * Container.t * world :=
  if negb (contains (_services self) service_name) then
    match Container.resolve service_type container w with
    | (Ok service, container', w') =>
        match is_initialized service with
        | Ok true =>
            (service,
             {| _services := <[service_name := service]> (_services self) |},
             container', w')
        | _ => (PyNone, self, container', w')
        end
    | (Raise e, container', w') => (PyNone, self, container', w')
    end
  else
    (match getitem (_services self) service_name with
     | Ok service => service
     | Raise _ => PyNone
     end, self, container, w).

End BaseRoutes.

(** * Properties *)

(** ** Container *)

Section ContainerFacts.
Import Container.

Lemma contains_spec {V} (d : gmap string V) k : contains d k = true ↔ is_Some (d !! k).
Proof. unfold contains. apply bool_decide_eq_true. Qed.

Lemma contains_Some {V} (d : gmap string V) k v : d !! k = Some v → contains d k = true.
Proof. intros H. apply contains_spec. eauto. Qed.

Lemma contains_None {V} (d : gmap string V) k : d !! k = None → contains d k = false.
Proof.
  intros H. unfold contains. apply bool_decide_eq_false. rewrite H. by intros [? ?].
Qed.

Lemma getitem_Some {V} (d : gmap string V) k v : d !! k = Some v → getitem d k = Ok v.
Proof. unfold getitem. by intros ->. Qed.

Lemma resolve_instance c self w x :
  _singletons self !! c = Some x → resolve c self w = (Ok x, self, w).
Proof.
  intros H. unfold resolve. by rewrite (contains_Some _ _ _ H), (getitem_Some _ _ _ H).
Qed.

Lemma resolve_singleton_class c self w (impl : callable value) :
  _singletons self !! c = None → _services self !! c = Some impl →
  resolve c self w =
    match impl w with
    | (Ok v, w') => (Ok v, register_instance c v self, w')
    | (Raise e, w') => (Raise e, self, w')
    end.
Proof.
  intros Hn Hs. unfold resolve.
  rewrite (contains_None _ _ Hn), (contains_Some _ _ _ Hs), (getitem_Some _ _ _ Hs). simpl.
  destruct (impl w) as [[v|e] w']; [|done].
  unfold getitem. simpl. by rewrite lookup_insert_eq.
Qed.

Lemma resolve_factory c self w (f : callable value) :
  _singletons self !! c = None → _services self !! c = None →
  _factories self !! c = Some f →
  resolve c self w = ((f w).1, self, (f w).2).
Proof.
  intros Hn Hs Hf. unfold resolve.
  rewrite (contains_None _ _ Hn), (contains_None _ _ Hs), (contains_Some _ _ _ Hf),
    (getitem_Some _ _ _ Hf).
  by destruct (f w).
Qed.

Lemma is_registered_false c self :
  is_registered c self = false ↔
  _singletons self !! c = None ∧ _services self !! c = None ∧ _factories self !! c = None.
Proof.
  unfold is_registered, contains.
  rewrite !orb_false_iff, !bool_decide_eq_false, <-!eq_None_not_Some. tauto.
Qed.

Lemma resolve_unregistered c self w :
  is_registered c self = false →
  resolve c self w = (Raise (not_registered c), self, w).
Proof.
  intros (Hn & Hs & Hf)%is_registered_false. unfold resolve.
  by rewrite (contains_None _ _ Hn), (contains_None _ _ Hs), (contains_None _ _ Hf).
Qed.

(** [resolve] only ever adds to the instance table. *)
Lemma resolve_keeps_instance c i self w x :
  _singletons self !! c = Some x →
  _singletons (resolve i self w).1.2 !! c = Some x.
Proof.
  intros H. unfold resolve.
  destruct (contains (_singletons self) i) eqn:Hi; [done|].
  destruct (contains (_services self) i); simpl.
  - destruct (getitem (_services self) i) as [impl|e]; [|done].
    destruct (impl w) as [[v|e] w']; [|done]. simpl.
    rewrite lookup_insert_ne; [done|]. intros ->.
    apply (contains_Some (_singletons self)) in H. congruence.
  - destruct (contains (_factories self) i); [|done].
    destruct (getitem (_factories self) i) as [f|e]; [|done]. by destruct (f w).
Qed.

Lemma step_keeps_instance c call st x :
  rebinds c call = false →
  _singletons st.1 !! c = Some x →
  _singletons (step call st).1 !! c = Some x.
Proof.
  destruct st as [k w]. destruct call as [i impl s|i y|i f|i|i|]; simpl; intros Hr H; try done.
  - by destruct s.
  - apply bool_decide_eq_false in Hr. by rewrite lookup_insert_ne.
  - pose proof (resolve_keeps_instance c i k w x H) as H'.
    by destruct (resolve i k w) as [[r k'] w'].
Qed.

Lemma run_keeps_instance c cs st x :
  forallb (λ call, negb (rebinds c call)) cs = true →
  _singletons st.1 !! c = Some x →
  _singletons (run cs st).1 !! c = Some x.
Proof.
  revert st. induction cs as [|call cs IH]; intros st Hcs H; [done|].
  simpl in Hcs. apply andb_true_iff in Hcs as [Hc Hcs]. apply negb_true_iff in Hc.
  apply IH; [done|]. by apply step_keeps_instance.
Qed.

End ContainerFacts.

(** C1. [Container.resolve] follows the precedence instance registration,
    then singleton class, then factory.  An instance registration is returned
    as it is.  A singleton class is constructed on the first resolve, cached,
    and the cached instance is what every later resolve returns.  A factory is
    called at each resolve and its result is not cached.  A capability with no
    entry in any table makes [resolve] raise the "not registered" error.  After
    [register_instance c x], [resolve c] returns [x] at every later call,
    whatever registrations and resolutions happen in between, as long as the
    entry of [c] is not rebound by hand ([register_instance c] again or
    [clear]). *)
Theorem C1_resolve_precedence (c : string) (self : Container.t) (w : world) :
  (∀ x, Container._singletons self !! c = Some x →
        Container.resolve c self w = (Ok x, self, w))
  ∧ (∀ (impl : callable value) v w',
        Container._singletons self !! c = None →
        Container._services self !! c = Some impl →
        impl w = (Ok v, w') →
        Container.resolve c self w = (Ok v, Container.register_instance c v self, w')
        ∧ ∀ w2, Container.resolve c (Container.register_instance c v self) w2
                = (Ok v, Container.register_instance c v self, w2))
  ∧ (∀ (f : callable value),
        Container._singletons self !! c = None →
        Container._services self !! c = None →
        Container._factories self !! c = Some f →
        Container.resolve c self w = ((f w).1, self, (f w).2))
  ∧ (Container.is_registered c self = false →
        Container.resolve c self w = (Raise (Container.not_registered c), self, w))
  ∧ (∀ x cs,
        forallb (λ call, negb (Container.rebinds c call)) cs = true →
        let st := Container.run cs (Container.register_instance c x self, w) in
        Container.resolve c st.1 st.2 = (Ok x, st.1, st.2)).
Proof.
  split_and!.
  - intros x H. by apply resolve_instance.
  - intros impl v w' Hn Hs Hi. split.
    + by rewrite (resolve_singleton_class _ _ _ _ Hn Hs), Hi.
    + intros w2. apply resolve_instance. simpl. apply lookup_insert_eq.
  - intros f Hn Hs Hf. by apply resolve_factory.
  - apply resolve_unregistered.
  - intros x cs Hcs st. apply resolve_instance. subst st.
    apply run_keeps_instance; [done|]. simpl. apply lookup_insert_eq.
Qed.

(** C9. Once a capability has an instance in the singleton table, whether
    [register_instance] put it there or the first resolve of a singleton
    class did, registering another singleton implementation for it changes
    nothing about what [resolve] returns: the cached instance is returned
    until [clear()], after which the capability is unknown.  A later
    [register_instance c y] makes [resolve c] return [y] at once. *)
Theorem C9_cached_instance_shadows_register (c : string) (self : Container.t)
    (w : world) :
  (∀ x, Container._singletons (Container.register_instance c x self) !! c = Some x)
  ∧ (∀ (impl : callable value) v self' w',
        Container._singletons self !! c = None →
        Container._services self !! c = Some impl →
        Container.resolve c self w = (Ok v, self', w') →
        Container._singletons self' !! c = Some v)
  ∧ (∀ x (other : callable value),
        Container._singletons self !! c = Some x →
        let self' := Container.register c other true self in
        Container.resolve c self' w = (Ok x, self', w)
        ∧ (∀ cs, forallb (λ call, negb (Container.rebinds c call)) cs = true →
                 let st := Container.run cs (self', w) in
                 Container.resolve c st.1 st.2 = (Ok x, st.1, st.2))
        ∧ (∀ y, Container.resolve c (Container.register_instance c y self') w
                = (Ok y, Container.register_instance c y self', w))
        ∧ Container.resolve c (Container.clear self') w
          = (Raise (Container.not_registered c), Container.clear self', w)).
Proof.
  split_and!.
  - intros x. simpl. apply lookup_insert_eq.
  - intros impl v self' w' Hn Hs. rewrite (resolve_singleton_class _ _ _ _ Hn Hs).
    destruct (impl w) as [[v'|e] w1]; [|done].
    intros [= -> <- <-]. simpl. apply lookup_insert_eq.
  - intros x other H self'. split_and!.
    + by apply resolve_instance.
    + intros cs Hcs st. apply resolve_instance. subst st. by apply run_keeps_instance.
    + intros y. apply resolve_instance. simpl. apply lookup_insert_eq.
    + by apply resolve_unregistered.
Qed.

Lemma C1_resolve_precedence_witness :
  Container.resolve "IHealthService" example_container w0
    = (Ok (PyObj "HealthService" 0),
       Container.register_instance "IHealthService" (PyObj "HealthService" 0)
         example_container,
       (allocate w0).2)
  ∧ Container.resolve "IClock" example_container w0
    = (Ok (PyObj "Clock" 0), example_container, (allocate w0).2)
  ∧ Container.resolve "IMissing" example_container w0
    = (Raise (Container.not_registered "IMissing"), example_container, w0)
  ∧ (let st := Container.run [Container.Resolve "IClock"; Container.Resolve "IHealthService"]
                 (Container.register_instance "IHealthService" (PyObj "Stub" 7)
                    example_container, w0) in
     Container.resolve "IHealthService" st.1 st.2 = (Ok (PyObj "Stub" 7), st.1, st.2)).
Proof.
  split_and!.
  - apply (C1_resolve_precedence "IHealthService" example_container w0)
      with (impl := new_object "HealthService"); reflexivity.
  - apply (proj1 (proj2 (proj2 (C1_resolve_precedence "IClock" example_container w0))))
      with (f := new_object "Clock"); reflexivity.
  - apply (C1_resolve_precedence "IMissing" example_container w0). reflexivity.
  - apply (C1_resolve_precedence "IHealthService" example_container w0). reflexivity.
Defined.

Lemma C9_cached_instance_shadows_register_witness :
  let cached := Container.register_instance "IHealthService" (PyObj "HealthService" 3)
                  example_container in
  let again := Container.register "IHealthService" (new_object "OtherHealth") true cached in
  Container.resolve "IHealthService" again w0 = (Ok (PyObj "HealthService" 3), again, w0)
  ∧ Container.resolve "IHealthService"
      (Container.register_instance "IHealthService" (PyObj "Stub" 9) again) w0
    = (Ok (PyObj "Stub" 9),
       Container.register_instance "IHealthService" (PyObj "Stub" 9) again, w0).
Proof.
  intros cached again.
  destruct (C9_cached_instance_shadows_register "IHealthService" cached w0)
    as (_ & _ & H).
  destruct (H (PyObj "HealthService" 3) (new_object "OtherHealth")) as (H1 & _ & H2 & _).
  { reflexivity. }
  split; [exact H1 | exact (H2 (PyObj "Stub" 9))].
Defined.

(** ** SingletonFactory and SingletonRegistry *)

Lemma factory_get_cached (f : SingletonFactory.t) w cls a :
  SingletonFactory._instance f = PyObj cls a →
  SingletonFactory.get_instance f w = (Ok (PyObj cls a), f, w).
Proof. unfold SingletonFactory.get_instance. by intros ->. Qed.

Lemma factory_get_empty (f : SingletonFactory.t) w :
  SingletonFactory._instance f = PyNone →
  SingletonFactory.get_instance f w =
    match SingletonFactory._factory_func f w with
    | (Ok v, w') =>
        (Ok v, {| SingletonFactory._factory_func := SingletonFactory._factory_func f;
                  SingletonFactory._instance := v |}, w')
    | (Raise e, w') => (Raise e, f, w')
    end.
Proof. unfold SingletonFactory.get_instance. by intros ->. Qed.

Lemma registry_get_registered x (self : SingletonRegistry.t)
    (h : SingletonRegistry.store) w r f :
  SingletonRegistry._factories self !! x = Some r → h !! r = Some f →
  SingletonRegistry.get_instance x self h w =
    let '(res, f', w') := SingletonFactory.get_instance f w in (res, <[r := f']> h, w').
Proof.
  intros Hx Hr. unfold SingletonRegistry.get_instance.
  rewrite (contains_Some _ _ _ Hx), (getitem_Some _ _ _ Hx). simpl.
  by rewrite (lookup_total_correct _ _ _ Hr).
Qed.

Lemma registry_get_unregistered x (self : SingletonRegistry.t)
    (h : SingletonRegistry.store) w :
  SingletonRegistry._factories self !! x = None →
  SingletonRegistry.get_instance x self h w
  = (Raise (SingletonRegistry.not_registered x), h, w).
Proof.
  intros Hx. unfold SingletonRegistry.get_instance. by rewrite (contains_None _ _ Hx).
Qed.

Lemma registry_reset_registered x (self : SingletonRegistry.t)
    (h : SingletonRegistry.store) r f :
  SingletonRegistry._factories self !! x = Some r → h !! r = Some f →
  SingletonRegistry.reset_instance x self h = <[r := SingletonFactory.reset_instance f]> h.
Proof.
  intros Hx Hr. unfold SingletonRegistry.reset_instance.
  rewrite (contains_Some _ _ _ Hx), (getitem_Some _ _ _ Hx).
  by rewrite (lookup_total_correct _ _ _ Hr).
Qed.

(** The first [get_instance] on a factory that constructs returns an existing
    object and leaves it cached. *)
Lemma factory_get_constructs (f : SingletonFactory.t) w :
  constructs (SingletonFactory._factory_func f) →
  allocated w (SingletonFactory._instance f) →
  ∃ cls a f' w',
    SingletonFactory.get_instance f w = (Ok (PyObj cls a), f', w')
    ∧ SingletonFactory._instance f' = PyObj cls a
    ∧ SingletonFactory._factory_func f' = SingletonFactory._factory_func f
    ∧ a < next_id w'
    ∧ (SingletonFactory._instance f = PyNone → next_id w ≤ a).
Proof.
  intros Hc Ha. destruct (SingletonFactory._instance f) as [|cls a] eqn:Hi.
  - destruct (Hc w) as (cls & a & w' & Hf & Hlo & Hhi).
    exists cls, a. eexists _, w'. rewrite (factory_get_empty _ _ Hi), Hf.
    split_and!; [done..| lia | done].
  - exists cls, a, f, w. rewrite (factory_get_cached _ _ _ _ Hi). simpl in Ha.
    split_and!; [done..|]. done.
Qed.

(** C8. For a registered name, [get_instance] called again after it returned
    an object returns that same object, without constructing anything; after
    [reset_instance], the next [get_instance] returns an object that did not
    exist before, hence a different one, provided the factory function is one
    that constructs; and for a name that was never registered [get_instance]
    raises the "not registered" [KeyError]. *)
Theorem C8_singleton_memoized (x : string) (self : SingletonRegistry.t)
    (h : SingletonRegistry.store) (w : world) :
  (∀ r f cls a h1 w1,
      SingletonRegistry._factories self !! x = Some r → h !! r = Some f →
      SingletonRegistry.get_instance x self h w = (Ok (PyObj cls a), h1, w1) →
      SingletonRegistry.get_instance x self h1 w1 = (Ok (PyObj cls a), h1, w1))
  ∧ (∀ r f,
      SingletonRegistry._factories self !! x = Some r → h !! r = Some f →
      constructs (SingletonFactory._factory_func f) →
      allocated w (SingletonFactory._instance f) →
      ∃ c1 a1 h1 w1 c2 a2 h2 w2,
        SingletonRegistry.get_instance x self h w = (Ok (PyObj c1 a1), h1, w1)
        ∧ SingletonRegistry.get_instance x self
            (SingletonRegistry.reset_instance x self h1) w1
          = (Ok (PyObj c2 a2), h2, w2)
        ∧ a2 ≠ a1 ∧ next_id w1 ≤ a2)
  ∧ (SingletonRegistry._factories self !! x = None →
      SingletonRegistry.get_instance x self h w
      = (Raise (SingletonRegistry.not_registered x), h, w)).
Proof.
  split_and!.
  - intros r f cls a h1 w1 Hx Hr. rewrite (registry_get_registered _ _ _ _ _ _ Hx Hr).
    destruct (SingletonFactory.get_instance f w) as [[res f'] w'] eqn:Hg.
    intros [= -> <- <-].
    assert (SingletonFactory._instance f' = PyObj cls a) as Hi.
    { unfold SingletonFactory.get_instance in Hg.
      destruct (SingletonFactory._instance f) as [|cls' a'] eqn:Hf.
      - destruct (SingletonFactory._factory_func f w) as [[v|e] w2]; by simplify_eq.
      - by simplify_eq. }
    rewrite (registry_get_registered _ _ (<[r:=f']> h) _ r f' Hx (lookup_insert_eq _ _ _)).
    rewrite (factory_get_cached _ _ _ _ Hi). by rewrite insert_insert_eq.
  - intros r f Hx Hr Hc Ha.
    destruct (factory_get_constructs f w Hc Ha) as (c1 & a1 & f' & w1 & Hg & Hi & Hff & Hlt & _).
    pose (g := SingletonFactory.reset_instance f').
    destruct (factory_get_constructs g w1) as (c2 & a2 & g' & w2 & Hg2 & _ & _ & _ & Hge).
    { unfold g. simpl. by rewrite Hff. }
    { done. }
    exists c1, a1, (<[r:=f']> h), w1, c2, a2. eexists _, w2.
    rewrite (registry_get_registered _ _ _ _ _ _ Hx Hr), Hg.
    split_and!; [done| |specialize (Hge eq_refl); lia |by apply Hge].
    rewrite (registry_reset_registered _ _ _ r f' Hx (lookup_insert_eq _ _ _)).
    rewrite (registry_get_registered _ _ _ _ r g Hx (lookup_insert_eq _ _ _)).
    fold g. by rewrite Hg2.
  - apply registry_get_unregistered.
Qed.

Lemma new_object_constructs cls : constructs (new_object cls).
Proof.
  intros w. exists cls, (next_id w). eexists. split; [reflexivity|]. simpl. lia.
Qed.

Lemma C8_singleton_memoized_witness :
  let '(reg, h, w) := example_singletons in
  (∃ v h1 w1,
      SingletonRegistry.get_instance "container" reg h w = (Ok v, h1, w1)
      ∧ SingletonRegistry.get_instance "container" reg h1 w1 = (Ok v, h1, w1))
  ∧ (∃ c1 a1 h1 w1 c2 a2 h2 w2,
      SingletonRegistry.get_instance "container" reg h w = (Ok (PyObj c1 a1), h1, w1)
      ∧ SingletonRegistry.get_instance "container" reg
          (SingletonRegistry.reset_instance "container" reg h1) w1
        = (Ok (PyObj c2 a2), h2, w2)
      ∧ a2 ≠ a1 ∧ next_id w1 ≤ a2)
  ∧ SingletonRegistry.get_instance "web_api" reg h w
    = (Raise (SingletonRegistry.not_registered "web_api"), h, w).
Proof.
  destruct example_singletons as [[reg h] w] eqn:E. vm_compute in E. simplify_eq.
  match goal with |- context [SingletonRegistry.get_instance _ ?reg ?h ?w] =>
    destruct (C8_singleton_memoized "container" reg h w) as (H1 & H2 & _);
    destruct (C8_singleton_memoized "web_api" reg h w) as (_ & _ & H3)
  end.
  split_and!.
  - eexists _, _, _. split; [reflexivity|].
    eapply (H1 0); reflexivity.
  - eapply (H2 0); [reflexivity | reflexivity | apply new_object_constructs | exact I].
  - apply H3. reflexivity.
Defined.

(** C3, as the design document states it, fails: with the container
    singleton built and cached, registering a second, new factory under the
    same name makes the next [get_instance] build another object. *)
Lemma C3_counterexample :
  ¬ (let '(reg, h, w) := example_singletons in
     let '(cached, h1, w1) := SingletonRegistry.get_instance "container" reg h w in
     let '(newFactory, h2, w2) :=
       SingletonRegistry.create_singleton_factory (new_object "Container") h1 w1 in
     let reg' := SingletonRegistry.register_factory "container" newFactory reg in
     (SingletonRegistry.get_instance "container" reg' h2 w2).1.1 = cached).
Proof. vm_compute. discriminate. Qed.

(** C3, amended. The cached instance belongs to the factory object, not to
    the name: after [register_factory n newFactory], [get_instance n] is
    answered by [newFactory].  It returns the instance [newFactory] has
    cached, if any; otherwise it calls [newFactory]'s function and caches the
    result there.  The instance cached by the factory that was registered
    before is returned only if [newFactory] is that same factory object; if
    [newFactory] is another object with an empty cache and a constructing
    function, a different object is returned, and the replaced factory keeps
    its own cache. *)
Theorem C3_register_factory_replaces_cache (n : string) (self : SingletonRegistry.t)
    (h : SingletonRegistry.store) (w : world) (newFactory : addr)
    (g : SingletonFactory.t) :
  h !! newFactory = Some g →
  let self' := SingletonRegistry.register_factory n newFactory self in
  (∀ cls a, SingletonFactory._instance g = PyObj cls a →
            SingletonRegistry.get_instance n self' h w = (Ok (PyObj cls a), h, w))
  ∧ (∀ v w', SingletonFactory._instance g = PyNone →
             SingletonFactory._factory_func g w = (Ok v, w') →
             SingletonRegistry.get_instance n self' h w
             = (Ok v,
                <[newFactory := {| SingletonFactory._factory_func :=
                                     SingletonFactory._factory_func g;
                                   SingletonFactory._instance := v |}]> h,
                w'))
  ∧ (∀ old f cls a,
        SingletonRegistry._factories self !! n = Some old →
        h !! old = Some f →
        SingletonFactory._instance f = PyObj cls a →
        (newFactory = old →
           SingletonRegistry.get_instance n self' h w = (Ok (PyObj cls a), h, w))
        ∧ (newFactory ≠ old →
           SingletonFactory._instance g = PyNone →
           constructs (SingletonFactory._factory_func g) →
           a < next_id w →
           ∃ cls' a' h' w',
             SingletonRegistry.get_instance n self' h w = (Ok (PyObj cls' a'), h', w')
             ∧ a' ≠ a ∧ h' !! old = Some f)).
Proof.
  intros Hg self'.
  assert (SingletonRegistry._factories self' !! n = Some newFactory) as Hn.
  { simpl. apply lookup_insert_eq. }
  split_and!.
  - intros cls a Hi.
    rewrite (registry_get_registered _ _ _ _ _ _ Hn Hg), (factory_get_cached _ _ _ _ Hi).
    by rewrite insert_id.
  - intros v w' Hi Hf.
    by rewrite (registry_get_registered _ _ _ _ _ _ Hn Hg), (factory_get_empty _ _ Hi), Hf.
  - intros old f cls a Hold Hf Hi. split.
    + intros ->. simplify_eq.
      rewrite (registry_get_registered _ _ _ _ _ _ Hn Hg), (factory_get_cached _ _ _ _ Hi).
      by rewrite insert_id.
    + intros Hne Hnone Hc Ha.
      destruct (factory_get_constructs g w Hc) as (cls' & a' & g' & w' & Hget & _ & _ & _ & Hge).
      { by rewrite Hnone. }
      exists cls', a', (<[newFactory := g']> h), w'.
      rewrite (registry_get_registered _ _ _ _ _ _ Hn Hg), Hget.
      split_and!; [done| specialize (Hge Hnone); lia |].
      by rewrite lookup_insert_ne.
Qed.

Lemma C3_register_factory_replaces_cache_witness :
  let '(reg, h, w) := example_singletons in
  let '(cached, h1, w1) := SingletonRegistry.get_instance "container" reg h w in
  let '(newFactory, h2, w2) :=
    SingletonRegistry.create_singleton_factory (new_object "Container") h1 w1 in
  let reg' := SingletonRegistry.register_factory "container" newFactory reg in
  cached = Ok (PyObj "Container" 1)
  ∧ SingletonRegistry.get_instance "container" reg' h2 w2
    = (Ok (PyObj "Container" 3),
       <[newFactory := {| SingletonFactory._factory_func := new_object "Container";
                          SingletonFactory._instance := PyObj "Container" 3 |}]> h2,
       (allocate w2).2).
Proof.
  destruct example_singletons as [[reg h] w] eqn:E. vm_compute in E. simplify_eq.
  match goal with |- context [SingletonRegistry.get_instance "container" ?reg ?h ?w] =>
    destruct (SingletonRegistry.get_instance "container" reg h w) as [[cached h1] w1] eqn:E1
  end.
  vm_compute in E1. simplify_eq.
  match goal with |- context [SingletonRegistry.create_singleton_factory ?f ?h ?w] =>
    destruct (SingletonRegistry.create_singleton_factory f h w) as [[nf h2] w2] eqn:E2
  end.
  injection E2 as <- <- <-.
  split; [reflexivity|].
  match goal with |- SingletonRegistry.get_instance ?n (SingletonRegistry.register_factory _ ?nf ?reg) ?h ?w = _ =>
    destruct (C3_register_factory_replaces_cache n reg h w nf
                (SingletonFactory.__init__ (new_object "Container")))
      as (_ & H & _); [reflexivity|]
  end.
  apply H; reflexivity.
Defined.

(** ** BaseService *)

Lemma initialize_cases (hook : callable unit) (self : BaseService.t) (w : world) :
  (∃ e w', hook w = (Raise e, w')
           ∧ BaseService.initialize hook self w = (Ok false, self, w'))
  ∨ (∃ u w', hook w = (Ok u, w')
             ∧ BaseService.initialize hook self w
               = (Ok true,
                  {| BaseService._feature_name := BaseService._feature_name self;
                     BaseService._is_initialized := true |}, w')).
Proof.
  unfold BaseService.initialize. destruct (hook w) as [[u|e] w'] eqn:E.
  - right. by exists u, w'.
  - left. by exists e, w'.
Qed.

Lemma initialize_calls_flag (hook : callable unit) n (self : BaseService.t) w :
  BaseService.is_initialized (initialize_calls hook n self w).1.2 = true
  ↔ BaseService.is_initialized self = true
    ∨ Ok true ∈ (initialize_calls hook n self w).1.1.
Proof.
  revert self w. induction n as [|n IH]; intros self w; simpl.
  - rewrite elem_of_nil. tauto.
  - destruct (BaseService.initialize hook self w) as [[r self'] w'] eqn:E.
    specialize (IH self' w').
    destruct (initialize_calls hook n self' w') as [[rs self''] w'']. simpl in *.
    rewrite IH, elem_of_cons.
    destruct (initialize_cases hook self w) as [(e & w1 & _ & H)|(u & w1 & _ & H)];
      rewrite H in E; simplify_eq; simpl.
    + split; [intros [?|?]; auto | intros [?|[?|?]]; auto; done].
    + unfold BaseService.is_initialized. simpl. split; auto.
Qed.

(** C10. [BaseService.initialize] never raises.  When the feature's hook
    raises, it returns false and leaves the service as it was, so
    [is_initialized] stays false if it was false; when the hook returns, it
    returns true and [is_initialized] is true afterwards.  Hence, over any
    number of calls on a newly built service, [is_initialized] is true
    exactly when one of the calls returned true. *)
Theorem C10_initialize_never_raises (hook : callable unit) (self : BaseService.t)
    (w : world) :
  (∃ b, (BaseService.initialize hook self w).1.1 = Ok b)
  ∧ (∀ e w', hook w = (Raise e, w') →
        BaseService.initialize hook self w = (Ok false, self, w')
        ∧ (BaseService.is_initialized self = false →
           BaseService.is_initialized (BaseService.initialize hook self w).1.2 = false))
  ∧ (∀ u w', hook w = (Ok u, w') →
        (BaseService.initialize hook self w).1.1 = Ok true
        ∧ (BaseService.initialize hook self w).2 = w'
        ∧ BaseService.is_initialized (BaseService.initialize hook self w).1.2 = true)
  ∧ (∀ class_name feature_name n,
        let calls := initialize_calls hook n
                       (BaseService.__init__ class_name feature_name) w in
        BaseService.is_initialized calls.1.2 = true ↔ Ok true ∈ calls.1.1).
Proof.
  split_and!.
  - destruct (initialize_cases hook self w) as [(e & w1 & _ & ->)|(u & w1 & _ & ->)]; eauto.
  - intros e w' He. unfold BaseService.initialize. rewrite He. done.
  - intros u w' Hu. unfold BaseService.initialize. rewrite Hu. done.
  - intros class_name feature_name n calls. subst calls.
    rewrite initialize_calls_flag. unfold BaseService.is_initialized. simpl.
    split; [intros [?|?]; [done|auto] | auto].
Qed.

Lemma C10_initialize_never_raises_witness :
  let hook : callable unit := λ w, (Raise (ValueError "psutil is missing"), w) in
  let self := BaseService.__init__ "HealthService" (Some "health") in
  BaseService.initialize hook self w0 = (Ok false, self, w0)
  ∧ (BaseService.initialize BaseService._initialize_specific self w0).1.1 = Ok true.
Proof.
  intros hook self. split.
  - apply (C10_initialize_never_raises hook self w0) with (e := ValueError "psutil is missing").
    reflexivity.
  - apply (C10_initialize_never_raises BaseService._initialize_specific self w0)
      with (u := ()) (w' := w0).
    reflexivity.
Defined.

(** ** BaseServiceDetector *)

Lemma omap_cons_eq {A B} (f : A → option B) x l :
  omap f (x :: l) = match f x with Some y => y :: omap f l | None => omap f l end.
Proof. reflexivity. Qed.

Lemma foldl_service_classes (acc : list pyclass) (l : list (string * member)) :
  foldl (λ service_classes '(name, obj),
           if BaseServiceDetector.is_service_class obj then
             match obj with
             | MClass c => service_classes ++ [c]
             | MOther _ => service_classes
             end
           else service_classes) acc l
  = acc ++ omap as_service_class l.
Proof.
  revert acc. induction l as [|[name obj] l IH]; intros acc.
  - simpl. by rewrite app_nil_r.
  - cbn [foldl]. rewrite IH.
    change (omap as_service_class ((name, obj) :: l))
      with (match as_service_class (name, obj) with
            | Some c => c :: omap as_service_class l
            | None => omap as_service_class l
            end).
    unfold as_service_class at 2. cbn [snd].
    destruct obj as [c|v].
    + destruct (BaseServiceDetector.is_service_class (MClass c));
        [by rewrite <-app_assoc | done].
    + by destruct (BaseServiceDetector.is_service_class (MOther v)).
Qed.

Lemma get_service_classes_omap (module : namespace) :
  BaseServiceDetector.get_service_classes module
  = omap as_service_class (getmembers module isclass).
Proof. apply foldl_service_classes. Qed.

Lemma is_service_class_spec (c : pyclass) :
  BaseServiceDetector.is_service_class (MClass c) = true
  ↔ "BaseService" ∈ __name__ <$> __mro__ c
    ∧ __name__ (cls_type c) ≠ "BaseService"
    ∧ is_Some (_service_name c).
Proof.
  unfold BaseServiceDetector.is_service_class, BaseServiceDetector._service_criteria. simpl.
  unfold BaseServiceDetector._inherits_from_base_service,
    BaseServiceDetector._is_not_base_service_itself,
    BaseServiceDetector._has_service_name_attribute.
  rewrite !andb_true_iff, negb_true_iff, !bool_decide_eq_true, bool_decide_eq_false.
  tauto.
Qed.

Lemma as_service_class_Some x c :
  as_service_class x = Some c
  ↔ x.2 = MClass c ∧ BaseServiceDetector.is_service_class (MClass c) = true.
Proof.
  unfold as_service_class. destruct x as [name [c'|v]]; cbn [snd].
  - destruct (BaseServiceDetector.is_service_class (MClass c')) eqn:E; split.
    + intros [= ->]. done.
    + intros [[= ->] _]. done.
    + done.
    + intros [[= ->] H]. congruence.
  - split; [done | intros [? _]; done].
Qed.

Lemma elem_of_getmembers x module predicate :
  x ∈ getmembers module predicate ↔ x ∈ module ∧ predicate x.2 = true.
Proof.
  unfold getmembers. rewrite merge_sort_Permutation, list_elem_of_filter. tauto.
Qed.

Lemma StronglySorted_filter {A} (R : relation A) (P : A → Prop) `{!∀ x, Decision (P x)} l :
  StronglySorted R l → StronglySorted R (filter P l).
Proof.
  induction 1 as [|x l Hl IH Hx]; [constructor|].
  rewrite filter_cons. destruct (decide (P x)); [|done].
  constructor; [done|]. rewrite Forall_forall in Hx |- *.
  intros y [_ Hy]%list_elem_of_filter. by apply Hx.
Qed.

Lemma omap_filter_service (l : namespace) :
  omap as_service_class l
  = omap as_service_class
      (filter (λ x, BaseServiceDetector.is_service_class x.2 = true) l).
Proof.
  induction l as [|x l IH]; [done|]. rewrite filter_cons, omap_cons_eq.
  destruct (decide _) as [H|H]; [by rewrite omap_cons_eq, IH|].
  destruct (as_service_class x) as [c|] eqn:E; [|done].
  apply as_service_class_Some in E as [E1 E2]. rewrite E1 in H. done.
Qed.

Lemma filter_service_isclass (l : namespace) :
  filter (λ x, BaseServiceDetector.is_service_class x.2 = true)
    (filter (λ x, isclass x.2 = true) l)
  = filter (λ x, BaseServiceDetector.is_service_class x.2 = true) l.
Proof.
  induction l as [|x l IH]; [done|]. rewrite !filter_cons.
  destruct (decide (isclass x.2 = true)) as [Hc|Hc].
  - rewrite filter_cons. destruct (decide _); by rewrite IH.
  - rewrite IH. destruct (decide _) as [Hs|Hs]; [|done].
    destruct x as [name [c|v]]; simpl in *; done.
Qed.

Lemma omap_service_length (l : namespace) :
  length (omap as_service_class
            (filter (λ x, BaseServiceDetector.is_service_class x.2 = true) l))
  = length (filter (λ x, BaseServiceDetector.is_service_class x.2 = true) l).
Proof.
  induction l as [|y l IH]; [done|].
  rewrite filter_cons. destruct (decide _) as [H|H]; [|done].
  rewrite omap_cons_eq.
  destruct (as_service_class y) as [c|] eqn:Hy; [simpl; by rewrite IH|].
  exfalso. destruct y as [name [c|v]]; cbn [snd] in *; [|done].
  unfold as_service_class in Hy. cbn [snd] in Hy. by rewrite H in Hy.
Qed.

(** C4, as the design document states it, fails on the order: a module that
    declares [ZooService] before [AppService] gets them back the other way
    round. *)
Lemma C4_counterexample :
  class_names (BaseServiceDetector.get_service_classes example_module)
  ≠ class_names (service_classes_in_declaration_order example_module).
Proof. vm_compute. discriminate. Qed.

(** C4, amended. [get_service_classes] returns exactly the class members of
    the namespace that inherit from [BaseService], are not [BaseService]
    itself and carry the service-name marker; it returns them in the order of
    their member names, the order of [inspect.getmembers]. *)
Theorem C4_get_service_classes_sorted_by_name (module : namespace) :
  (∀ c, c ∈ BaseServiceDetector.get_service_classes module
        ↔ ∃ name, (name, MClass c) ∈ module
                  ∧ "BaseService" ∈ __name__ <$> __mro__ c
                  ∧ __name__ (cls_type c) ≠ "BaseService"
                  ∧ is_Some (_service_name c))
  ∧ ∃ members,
      members ≡ₚ filter (λ x, BaseServiceDetector.is_service_class x.2 = true) module
      ∧ StronglySorted name_le members
      ∧ BaseServiceDetector.get_service_classes module = omap as_service_class members
      ∧ length (BaseServiceDetector.get_service_classes module) = length members.
Proof.
  split.
  - intros c. rewrite get_service_classes_omap, list_elem_of_omap. split.
    + intros (x & Hx & Hs). apply as_service_class_Some in Hs as [Hc Hs].
      apply elem_of_getmembers in Hx as [Hx _]. destruct x as [name obj].
      simpl in Hc. subst obj. exists name. by rewrite <-is_service_class_spec.
    + intros (name & Hx & Hs). exists (name, MClass c). split.
      * by apply elem_of_getmembers.
      * apply as_service_class_Some. by rewrite is_service_class_spec.
  - exists (filter (λ x, BaseServiceDetector.is_service_class x.2 = true)
              (getmembers module isclass)).
    split_and!.
    + unfold getmembers. rewrite merge_sort_Permutation. by rewrite filter_service_isclass.
    + apply StronglySorted_filter. unfold getmembers.
      apply (StronglySorted_merge_sort name_le).
    + rewrite get_service_classes_omap. apply omap_filter_service.
    + rewrite get_service_classes_omap, omap_filter_service. apply omap_service_length.
Qed.

(** ** InterfaceRegistrationManager *)

Lemma successes_le (outs : list bool) : successes outs ≤ length outs.
Proof.
  unfold successes. induction outs as [|b outs IH]; [done|].
  rewrite filter_cons. destruct (decide (b = true)); simpl; lia.
Qed.

Lemma successes_all (outs : list bool) :
  successes outs = length outs ↔ ∀ b, b ∈ outs → b = true.
Proof.
  induction outs as [|b outs IH].
  - split; [intros _ b Hb; by apply elem_of_nil in Hb | done].
  - pose proof (successes_le outs) as Hle. unfold successes in *.
    rewrite filter_cons. destruct (decide (b = true)) as [->|Hb]; simpl.
    + split.
      * intros H b [->|Hb]%elem_of_cons; [done|]. apply IH; [lia|done].
      * intros H. f_equal. apply IH. intros b Hb. apply H. by right.
    + split; [lia|]. intros H. exfalso. apply Hb, H. by left.
Qed.

Section InterfaceManagerFacts.
Context {K : Type} {IC : IContainer.t K}.

(** What is asked of a container: a registration that succeeds makes the
    capability resolve to the instance and leaves the other capabilities as
    they resolve; a registration that raises changes nothing about what
    resolves. *)
Hypothesis register_instance_resolves : ∀ c x (k k' : K),
  IContainer.register_instance c x k = (Ok (), k') → resolves k' c x.
Hypothesis register_instance_frame : ∀ c x (k k' : K) c' y,
  IContainer.register_instance c x k = (Ok (), k') → c' ≠ c →
  resolves k c' y → resolves k' c' y.
Hypothesis register_instance_raise : ∀ c x (k k' : K) e c' y,
  IContainer.register_instance c x k = (Raise e, k') →
  resolves k c' y → resolves k' c' y.

Lemma single_interface_keeps interface inst (k : K) c :
  resolves k c inst →
  resolves (InterfaceRegistrationManager._register_single_interface interface inst k).2
    c inst.
Proof.
  intros H. unfold InterfaceRegistrationManager._register_single_interface.
  destruct (IContainer.register_instance (__name__ interface) inst k)
    as [[[]|e] k'] eqn:E; simpl.
  - destruct (decide (c = __name__ interface)) as [->|Hne].
    + by eapply register_instance_resolves.
    + by eapply register_instance_frame.
  - by eapply register_instance_raise.
Qed.

Lemma single_interface_true interface inst (k : K) :
  (InterfaceRegistrationManager._register_single_interface interface inst k).1 = true →
  resolves (InterfaceRegistrationManager._register_single_interface interface inst k).2
    (__name__ interface) inst.
Proof.
  unfold InterfaceRegistrationManager._register_single_interface.
  destruct (IContainer.register_instance (__name__ interface) inst k)
    as [[[]|e] k'] eqn:E; simpl; [|done].
  intros _. by eapply register_instance_resolves.
Qed.

Lemma register_loop_keeps interfaces inst n (k : K) c :
  resolves k c inst →
  resolves (InterfaceRegistrationManager.register_loop interfaces inst n k).2 c inst.
Proof.
  revert n k. induction interfaces as [|i l IH]; intros n k H; [done|]. simpl.
  pose proof (single_interface_keeps i inst k c H) as H'.
  destruct (InterfaceRegistrationManager._register_single_interface i inst k) as [ok k'].
  by apply IH.
Qed.

Lemma register_loop_count interfaces inst n (k : K) :
  (InterfaceRegistrationManager.register_loop interfaces inst n k).1
  = n + successes (InterfaceRegistrationManager.outcomes interfaces inst k).
Proof.
  revert n k. induction interfaces as [|i l IH]; intros n k; simpl.
  - unfold successes. simpl. lia.
  - destruct (InterfaceRegistrationManager._register_single_interface i inst k) as [ok k'].
    rewrite IH. unfold successes. rewrite filter_cons.
    destruct ok; simpl; [lia|]. destruct (decide (false = true)); [done|lia].
Qed.

Lemma outcomes_length interfaces inst (k : K) :
  length (InterfaceRegistrationManager.outcomes interfaces inst k) = length interfaces.
Proof.
  revert k. induction interfaces as [|i l IH]; intros k; simpl; [done|].
  destruct (InterfaceRegistrationManager._register_single_interface i inst k) as [ok k'].
  simpl. by rewrite IH.
Qed.

Lemma register_loop_resolves interfaces inst n (k : K) j c :
  interfaces !! j = Some c →
  InterfaceRegistrationManager.outcomes interfaces inst k !! j = Some true →
  resolves (InterfaceRegistrationManager.register_loop interfaces inst n k).2
    (__name__ c) inst.
Proof.
  revert n k j. induction interfaces as [|i l IH]; intros n k j Hj Ho; [done|].
  simpl in *.
  pose proof (single_interface_true i inst k) as Ht.
  destruct (InterfaceRegistrationManager._register_single_interface i inst k) as [ok k'].
  destruct j as [|j]; simpl in *.
  - simplify_eq. apply register_loop_keeps. by apply Ht.
  - by eapply IH.
Qed.

(** C5. [register_service_interfaces] returns a boolean and never raises.
    For a service whose strategy detects the capabilities [interfaces], every
    one of them is tried, whatever the earlier ones did; the call returns
    true exactly when every registration went through (and true when none was
    detected), the count of successes being the number of registrations that
    went through; and every capability whose registration went through is
    resolved by the container to the service instance afterwards, even when
    another registration raised. *)
Theorem C5_partial_interface_registration
    (strategy : pyclass → result (list pytype)) (service_class : pyclass)
    (service_instance : value) (container : K) (interfaces : list pytype) :
  strategy service_class = Ok interfaces →
  let result_ := InterfaceRegistrationManager.register_service_interfaces
                   strategy service_class service_instance container in
  let outs := InterfaceRegistrationManager.outcomes interfaces service_instance container in
  length outs = length interfaces
  ∧ (InterfaceRegistrationManager.register_loop interfaces service_instance 0 container).1
    = successes outs
  ∧ (result_.1 = true ↔ ∀ ok, ok ∈ outs → ok = true)
  ∧ (interfaces = [] → result_.1 = true)
  ∧ (∀ j c, interfaces !! j = Some c → outs !! j = Some true →
            resolves result_.2 (__name__ c) service_instance).
Proof.
  intros Hs result_ outs. subst result_ outs.
  unfold InterfaceRegistrationManager.register_service_interfaces. rewrite Hs.
  pose proof (register_loop_count interfaces service_instance 0 container) as Hc.
  pose proof (outcomes_length interfaces service_instance container) as Hl.
  pose proof (register_loop_resolves interfaces service_instance 0 container) as Hr.
  destruct (InterfaceRegistrationManager.register_loop interfaces service_instance 0
              container) as [n k'] eqn:E.
  simpl in Hc, Hr. split_and!; [done|done| | |].
  - simpl. rewrite <-successes_all, Hl.
    destruct interfaces as [|i l].
    + simpl in *. unfold successes. simpl. done.
    + rewrite Nat.eqb_eq. by rewrite Hc.
  - by intros ->.
  - intros j c Hj Ho. apply (Hr j c Hj Ho).
Qed.

End InterfaceManagerFacts.

(** The plain [Container] and the rejecting one meet what is asked. *)
Lemma Container_resolve_frame c x c' y (k : Container.t) :
  c' ≠ c →
  (∀ w, (Container.resolve c' k w).1.1 = Ok y) →
  ∀ w, (Container.resolve c' (Container.register_instance c x k) w).1.1 = Ok y.
Proof.
  intros Hne Hk w. specialize (Hk w).
  set (k' := Container.register_instance c x k).
  assert (Container._singletons k' !! c' = Container._singletons k !! c') as Hs.
  { simpl. by rewrite lookup_insert_ne. }
  destruct (Container._singletons k !! c') as [v|] eqn:E1.
  { rewrite (resolve_instance _ _ _ _ E1) in Hk. by rewrite (resolve_instance _ _ _ _ Hs). }
  destruct (Container._services k !! c') as [impl|] eqn:E2.
  { rewrite (resolve_singleton_class _ _ _ _ E1 E2) in Hk.
    rewrite (resolve_singleton_class c' k' w impl Hs E2).
    by destruct (impl w) as [[v|e] w']. }
  destruct (Container._factories k !! c') as [f|] eqn:E3.
  { rewrite (resolve_factory _ _ _ _ E1 E2 E3) in Hk.
    by rewrite (resolve_factory c' k' w f Hs E2 E3). }
  rewrite resolve_unregistered in Hk; [done|]. by apply is_registered_false.
Qed.

Lemma RejectingContainer_resolves (k : RejectingContainer.t) c x :
  resolves k c x ↔ ∀ w, (Container.resolve c (RejectingContainer.inner k) w).1.1 = Ok x.
Proof.
  unfold resolves. simpl. unfold RejectingContainer.resolve.
  split; intros H w; specialize (H w);
    by destruct (Container.resolve c (RejectingContainer.inner k) w) as [[r k'] w'].
Qed.

Lemma RejectingContainer_register_instance_resolves c x (k k' : RejectingContainer.t) :
  IContainer.register_instance c x k = (Ok (), k') → resolves k' c x.
Proof.
  simpl. unfold RejectingContainer.register_instance. case_bool_decide; [done|].
  intros [= <-]. apply RejectingContainer_resolves. intros w. simpl.
  rewrite (resolve_instance c _ w x); [done|]. simpl. apply lookup_insert_eq.
Qed.

Lemma RejectingContainer_register_instance_frame c x (k k' : RejectingContainer.t) c' y :
  IContainer.register_instance c x k = (Ok (), k') → c' ≠ c →
  resolves k c' y → resolves k' c' y.
Proof.
  simpl. unfold RejectingContainer.register_instance. case_bool_decide; [done|].
  intros [= <-] Hne. rewrite !RejectingContainer_resolves. simpl.
  by apply Container_resolve_frame.
Qed.

Lemma RejectingContainer_register_instance_raise c x (k k' : RejectingContainer.t) e c' y :
  IContainer.register_instance c x k = (Raise e, k') →
  resolves k c' y → resolves k' c' y.
Proof.
  simpl. unfold RejectingContainer.register_instance. case_bool_decide; [|done].
  by intros [= _ <-].
Qed.

Lemma C5_partial_interface_registration_witness :
  let result_ := InterfaceRegistrationManager.register_service_interfaces
                   AbstractMethodInterfaceStrategy.get_interfaces HealthService_class
                   (PyObj "HealthService" 0) example_rejecting in
  AbstractMethodInterfaceStrategy.get_interfaces HealthService_class
    = Ok [IHealthService_type; IDiagnostics_type;
          IService_type; IHealthService_type; IDiagnostics_type]
  ∧ result_.1 = false
  ∧ resolves result_.2 "IHealthService" (PyObj "HealthService" 0)
  ∧ resolves result_.2 "IService" (PyObj "HealthService" 0).
Proof.
  intros result_.
  assert (AbstractMethodInterfaceStrategy.get_interfaces HealthService_class
          = Ok [IHealthService_type; IDiagnostics_type;
                IService_type; IHealthService_type; IDiagnostics_type]) as Hs
    by reflexivity.
  destruct (C5_partial_interface_registration
              RejectingContainer_register_instance_resolves
              RejectingContainer_register_instance_frame
              RejectingContainer_register_instance_raise
              AbstractMethodInterfaceStrategy.get_interfaces HealthService_class
              (PyObj "HealthService" 0) example_rejecting _ Hs)
    as (_ & _ & Hall & _ & Hres).
  split_and!.
  - exact Hs.
  - reflexivity.
  - apply (Hres 0 IHealthService_type); reflexivity.
  - apply (Hres 2 IService_type); reflexivity.
Defined.

(** ** ServiceRegistry and ServiceDiscovery *)

Lemma dict_get_setitem {V} k (v : V) d : dict_get k (dict_setitem k v d) = Some v.
Proof.
  induction d as [|[k' v'] d IH]; simpl.
  - by rewrite bool_decide_eq_true_2.
  - case_bool_decide as E; simpl.
    + by rewrite bool_decide_eq_true_2.
    + by rewrite bool_decide_eq_false_2.
Qed.

Lemma load_service_module_absent env module_path :
  env !! (module_path +:+ "." +:+ ServiceConstants.SERVICE_MODULE_NAME) = None →
  ServiceDiscovery._load_service_module env module_path = Ok None.
Proof.
  intros H. unfold ServiceDiscovery._load_service_module, import_module. by rewrite H.
Qed.

Lemma load_service_module_import_error env module_path e :
  env !! (module_path +:+ "." +:+ ServiceConstants.SERVICE_MODULE_NAME)
    = Some (ImportRaises e) →
  is_ImportError e = true →
  ServiceDiscovery._load_service_module env module_path = Ok None.
Proof.
  intros H He. unfold ServiceDiscovery._load_service_module, import_module.
  by rewrite H, He.
Qed.

Lemma load_service_module_present env module_path m :
  env !! (module_path +:+ "." +:+ ServiceConstants.SERVICE_MODULE_NAME)
    = Some (Imported m) →
  ServiceDiscovery._load_service_module env module_path = Ok (Some m).
Proof.
  intros H. unfold ServiceDiscovery._load_service_module, import_module. by rewrite H.
Qed.

Lemma get_service_classes_nil (m : namespace) :
  (∀ x, x ∈ m → BaseServiceDetector.is_service_class x.2 = false) →
  BaseServiceDetector.get_service_classes m = [].
Proof.
  intros H. rewrite get_service_classes_omap.
  destruct (omap as_service_class (getmembers m isclass)) as [|c l] eqn:E; [done|].
  assert (c ∈ omap as_service_class (getmembers m isclass)) as Hc.
  { rewrite E. by left. }
  apply list_elem_of_omap in Hc as (x & Hx & Hs).
  apply elem_of_getmembers in Hx as [Hx _]. apply H in Hx.
  apply as_service_class_Some in Hs as [Hs1 Hs2]. rewrite Hs1 in Hx. congruence.
Qed.

(** A service whose [initialize()] does not return true is not registered:
    the registry is left as it was. *)
Lemma register_service_class_fails self s module_path st :
  (∀ obj w, (initialize s obj w).1.1 ≠ Ok true) →
  (ServiceDiscovery._register_service_class self s module_path st).1 = false
  ∧ registry (ServiceDiscovery._register_service_class self s module_path st).2
    = registry st.
Proof.
  intros Hf. unfold ServiceDiscovery._register_service_class.
  destruct (construct s (the_world st)) as [[obj|e] w1]; [|done].
  destruct (allocate w1) as [a w2].
  specialize (Hf obj w2).
  destruct (initialize s obj w2) as [[[b|e] obj'] w3]; [destruct b|]; simpl in *; done.
Qed.

(** What the default pipeline does with a service that builds and
    initialises. *)
Lemma register_service_class_succeeds rm s module_path st obj w1 obj' w2 n :
  construct s (the_world st) = (Ok obj, w1) →
  initialize s obj (allocate w1).2 = (Ok true, obj', w2) →
  _service_name s = Some n →
  (ServiceDiscovery._register_service_class (ServiceDiscovery.__init__ rm)
     s module_path st).1 = true
  ∧ ServiceRegistry._services
      (registry (ServiceDiscovery._register_service_class (ServiceDiscovery.__init__ rm)
                   s module_path st).2)
    = dict_setitem n (PyObj (__name__ (cls_type s)) (next_id w1))
        (ServiceRegistry._services (registry st))
  ∧ objects (ServiceDiscovery._register_service_class (ServiceDiscovery.__init__ rm)
               s module_path st).2 !! next_id w1 = Some obj'.
Proof.
  intros Hc Hi Hn. unfold ServiceDiscovery._register_service_class.
  rewrite Hc. unfold allocate in *. simpl in Hi. rewrite Hi, Hn. simpl.
  destruct (InterfaceRegistrationManager.register_service_interfaces _ _ _ _) as [ok k].
  destruct (RouteManager.setup_routes rm _ _ _ _ _) as [k' w4]. simpl.
  split_and!; [done..|]. apply lookup_insert_eq.
Qed.

(** C6. When the feature has no service module (the import raises
    [ImportError]), or has one in which the detector finds no service class,
    [discover_and_register_services] returns true and leaves the whole state,
    the service registry included, as it was. *)
Theorem C6_absent_services_is_success (self : ServiceDiscovery.t) (env : import_env)
    (module_path : string) (st : state) :
  (env !! (module_path +:+ "." +:+ ServiceConstants.SERVICE_MODULE_NAME) = None →
     ServiceDiscovery.discover_and_register_services self env module_path st = (true, st))
  ∧ (∀ e, env !! (module_path +:+ "." +:+ ServiceConstants.SERVICE_MODULE_NAME)
            = Some (ImportRaises e) →
          is_ImportError e = true →
          ServiceDiscovery.discover_and_register_services self env module_path st
          = (true, st))
  ∧ (∀ m, env !! (module_path +:+ "." +:+ ServiceConstants.SERVICE_MODULE_NAME)
            = Some (Imported m) →
          ServiceDiscovery._service_detector self m = Ok [] →
          ServiceDiscovery.discover_and_register_services self env module_path st
          = (true, st))
  ∧ (∀ rm m, env !! (module_path +:+ "." +:+ ServiceConstants.SERVICE_MODULE_NAME)
               = Some (Imported m) →
             (∀ x, x ∈ m → BaseServiceDetector.is_service_class x.2 = false) →
             auto_discover_services env rm module_path st = (true, st)).
Proof.
  unfold auto_discover_services, ServiceDiscovery.discover_and_register_services.
  split_and!.
  - intros H. by rewrite (load_service_module_absent _ _ H).
  - intros e H He. by rewrite (load_service_module_import_error _ _ _ H He).
  - intros m H Hd. by rewrite (load_service_module_present _ _ _ H), Hd.
  - intros rm m H Hm. rewrite (load_service_module_present _ _ _ H). simpl.
    by rewrite (get_service_classes_nil _ Hm).
Qed.

Lemma C6_absent_services_is_success_witness :
  auto_discover_services example_env no_routes "features.settings" initial_state
    = (true, initial_state)
  ∧ auto_discover_services
      (<["features.empty.service" := Imported [("BaseService", MClass BaseService_class)]]>
         example_env)
      no_routes "features.empty" initial_state
    = (true, initial_state).
Proof.
  split.
  - apply (C6_absent_services_is_success (ServiceDiscovery.__init__ no_routes)
             example_env "features.settings" initial_state).
    reflexivity.
  - eapply (C6_absent_services_is_success (ServiceDiscovery.__init__ no_routes)).
    + reflexivity.
    + intros x Hx. apply list_elem_of_singleton in Hx as ->. reflexivity.
Defined.

(** C2, as the design document states it, fails: in a feature whose first
    service initialises and whose second does not, discovery returns false
    but the first service is in the registry afterwards. *)
Lemma C2_counterexample :
  ¬ (let r := auto_discover_services example_env no_routes "features.demo"
                initial_state in
     r.1 = false
     ∧ ServiceRegistry.service_exists "alpha" (registry r.2) = false
     ∧ ServiceRegistry.service_exists "beta" (registry r.2) = false).
Proof. vm_compute. intros (_ & H & _). discriminate H. Qed.

(** C2, amended. Discovery stops at the first service that fails and returns
    false, without undoing what it did before: in a feature with two service
    classes where the first builds and initialises and the second does not
    initialise, [discover_and_register_services] returns false, the second
    service is not registered, and the first one stays in the registry under
    its service name. *)
Theorem C2_no_rollback_within_feature (route_manager : RouteManager.t)
    (env : import_env) (module_path : string) (st : state) (m : namespace)
    (s1 s2 : pyclass) (obj : BaseService.t) (w1 : world) (obj' : BaseService.t)
    (w2 : world) (n1 : string) :
  env !! (module_path +:+ "." +:+ ServiceConstants.SERVICE_MODULE_NAME)
    = Some (Imported m) →
  BaseServiceDetector.get_service_classes m = [s1; s2] →
  construct s1 (the_world st) = (Ok obj, w1) →
  initialize s1 obj (allocate w1).2 = (Ok true, obj', w2) →
  _service_name s1 = Some n1 →
  (∀ obj2 w, (initialize s2 obj2 w).1.1 ≠ Ok true) →
  let r := auto_discover_services env route_manager module_path st in
  let first := PyObj (__name__ (cls_type s1)) (next_id w1) in
  r.1 = false
  ∧ ServiceRegistry._services (registry r.2)
    = dict_setitem n1 first (ServiceRegistry._services (registry st))
  ∧ ServiceRegistry.service_exists n1 (registry r.2) = true
  ∧ ServiceRegistry.get_service n1 (registry r.2) = first.
Proof.
  intros Henv Hd Hc Hi Hn Hf r first. subst r.
  unfold auto_discover_services, ServiceDiscovery.discover_and_register_services.
  rewrite (load_service_module_present _ _ _ Henv). simpl. rewrite Hd. simpl.
  destruct (register_service_class_succeeds route_manager s1 module_path st
              obj w1 obj' w2 n1 Hc Hi Hn) as (Hok & Hreg & _).
  destruct (ServiceDiscovery._register_service_class _ s1 module_path st)
    as [ok1 st1]. simpl in Hok, Hreg. subst ok1. simpl.
  destruct (register_service_class_fails (ServiceDiscovery.__init__ route_manager)
              s2 module_path st1 Hf) as (Hno & Hsame).
  destruct (ServiceDiscovery._register_service_class _ s2 module_path st1)
    as [ok2 st2]. simpl in Hno, Hsame. subst ok2. simpl.
  rewrite Hsame.
  unfold ServiceRegistry.service_exists, ServiceRegistry.get_service.
  rewrite Hreg, dict_get_setitem. split_and!; [done..| |done].
  apply bool_decide_eq_true. eauto.
Qed.

Lemma C2_no_rollback_within_feature_witness :
  let r := auto_discover_services example_env no_routes "features.demo" initial_state in
  r.1 = false
  ∧ ServiceRegistry._services (registry r.2) = [("alpha", PyObj "AlphaService" 0)]
  ∧ ServiceRegistry.service_exists "alpha" (registry r.2) = true
  ∧ ServiceRegistry.get_service "alpha" (registry r.2) = PyObj "AlphaService" 0.
Proof.
  apply (C2_no_rollback_within_feature no_routes example_env "features.demo"
           initial_state demo_module
           (Service (Some "alpha")
              (derived_service "AlphaService" [] BaseService._initialize_specific))
           (Service (Some "beta") (derived_service "BetaService" [] failing_hook))
           (BaseService.__init__ "AlphaService" None) w0
           {| BaseService._feature_name := "alpha"; BaseService._is_initialized := true |}
           (allocate w0).2 "alpha").
  - reflexivity.
  - reflexivity.
  - reflexivity.
  - reflexivity.
  - reflexivity.
  - intros obj2 w. simpl. discriminate.
Defined.

(** ** FeatureManager *)

Lemma register_features_app env rm before after self st :
  FeatureManager.register_features env rm (before ++ after) self st
  = let '(ok, self1, st1) := FeatureManager.register_features env rm before self st in
    if ok then FeatureManager.register_features env rm after self1 st1
    else (false, self1, st1).
Proof.
  revert self st. induction before as [|[n p] l IH]; intros self st; [done|].
  simpl. destruct (auto_discover_services env rm p st) as [[] st']; [|done].
  apply IH.
Qed.

(** Registration touches only the records of the features it is given. *)
Lemma register_features_frame env rm l self st n :
  n ∉ l.*1 →
  FeatureManager._features (FeatureManager.register_features env rm l self st).1.2 !! n
  = FeatureManager._features self !! n.
Proof.
  revert self st. induction l as [|[n0 p0] l IH]; intros self st Hn; [done|].
  simpl in *. apply not_elem_of_cons in Hn as [Hne Hn].
  destruct (auto_discover_services env rm p0 st) as [[] st']; [|done].
  rewrite IH; [|done]. simpl. by rewrite lookup_insert_ne.
Qed.

(** After a registration that succeeded, every feature of the list has an
    active record. *)
Lemma register_features_recorded env rm l self st self1 st1 :
  FeatureManager.register_features env rm l self st = (true, self1, st1) →
  ∀ n p, (n, p) ∈ l →
    ∃ f, FeatureManager._features self1 !! n = Some f
         ∧ FeatureManager.status f = "active"
         ∧ (n, FeatureManager.module_path f) ∈ l.
Proof.
  revert self st. induction l as [|[n0 p0] l IH]; intros self st Hr n p Hin.
  { by apply elem_of_nil in Hin. }
  simpl in Hr. destruct (auto_discover_services env rm p0 st) as [[] st'] eqn:E; [|done].
  destruct (decide (n ∈ l.*1)) as [Hl|Hl].
  - apply list_elem_of_fmap in Hl as ([n' p'] & -> & Hl). simpl.
    destruct (IH _ _ Hr n' p' Hl) as (f & Hf & Ha & Hm).
    exists f. split_and!; [done..|]. by right.
  - apply elem_of_cons in Hin as [[= -> ->]|Hin].
    + pose proof (register_features_frame env rm l
                    {| FeatureManager._features :=
                         <[n0 := {| FeatureManager.module_path := p0;
                                    FeatureManager.status := "active";
                                    FeatureManager.registered_at := clock (the_world st') |}]>
                           (FeatureManager._features self) |} st' n0 Hl) as Hfr.
      rewrite Hr in Hfr. simpl in Hfr. rewrite lookup_insert_eq in Hfr.
      eexists. split_and!; [exact Hfr|done|]. simpl. by left.
    + exfalso. apply Hl. apply list_elem_of_fmap. by exists (n, p).
Qed.

Lemma discover_fails_on_first env rm module_path st m s rest :
  env !! (module_path +:+ "." +:+ ServiceConstants.SERVICE_MODULE_NAME)
    = Some (Imported m) →
  BaseServiceDetector.get_service_classes m = s :: rest →
  (∀ obj w, (initialize s obj w).1.1 ≠ Ok true) →
  (auto_discover_services env rm module_path st).1 = false
  ∧ registry (auto_discover_services env rm module_path st).2 = registry st.
Proof.
  intros Henv Hd Hf.
  unfold auto_discover_services, ServiceDiscovery.discover_and_register_services.
  rewrite (load_service_module_present _ _ _ Henv). simpl. rewrite Hd. simpl.
  destruct (register_service_class_fails (ServiceDiscovery.__init__ rm)
              s module_path st Hf) as (Hno & Hsame).
  destruct (ServiceDiscovery._register_service_class _ s module_path st) as [ok st'].
  simpl in *. by subst ok.
Qed.

(** C7. [register_features] goes through the list in order and stops at the
    first feature whose discovery fails: it returns false, the features after
    it are not attempted, the features before it keep their active records,
    and neither the failing feature nor a later one gets a record.  For a
    single feature whose service does not initialise, it returns false and
    the status reports no feature. *)
Theorem C7_register_features_fail_fast (env : import_env) (rm : RouteManager.t)
    (self : FeatureManager.t) (st : state) :
  (∀ before name path after self1 st1 st2,
      FeatureManager.register_features env rm before self st = (true, self1, st1) →
      auto_discover_services env rm path st1 = (false, st2) →
      FeatureManager.register_features env rm (before ++ (name, path) :: after) self st
      = (false, self1, st2)
      ∧ (∀ n p, (n, p) ∈ before →
           ∃ f, FeatureManager._features self1 !! n = Some f
                ∧ FeatureManager.status f = "active"
                ∧ (n, FeatureManager.module_path f) ∈ before)
      ∧ (∀ n, n ∉ before.*1 →
           FeatureManager._features self1 !! n = FeatureManager._features self !! n))
  ∧ (∀ name path m s rest,
      env !! (path +:+ "." +:+ ServiceConstants.SERVICE_MODULE_NAME) = Some (Imported m) →
      BaseServiceDetector.get_service_classes m = s :: rest →
      (∀ obj w, (initialize s obj w).1.1 ≠ Ok true) →
      let r := FeatureManager.register_features env rm [(name, path)]
                 FeatureManager.__init__ st in
      r.1.1 = false
      ∧ FeatureManager.total_features (FeatureManager.get_features_status r.1.2 r.2) = 0
      ∧ registry r.2 = registry st).
Proof.
  split.
  - intros before name path after self1 st1 st2 Hb Hf. split_and!.
    + rewrite register_features_app, Hb. simpl. by rewrite Hf.
    + by eapply register_features_recorded.
    + intros n Hn. pose proof (register_features_frame env rm before self st n Hn) as H.
      by rewrite Hb in H.
  - intros name path m s rest Henv Hd Hf r. subst r. simpl.
    destruct (discover_fails_on_first env rm path st m s rest Henv Hd Hf) as (Hno & Hsame).
    destruct (auto_discover_services env rm path st) as [ok st']. simpl in *. subst ok.
    simpl. split_and!; [done| |done]. apply map_size_empty.
Qed.

Lemma C7_register_features_fail_fast_witness :
  let r := FeatureManager.register_features example_env no_routes
             [("health", "features.health"); ("broken", "features.broken");
              ("demo", "features.demo")]
             FeatureManager.__init__ initial_state in
  r.1.1 = false
  ∧ (∃ f, FeatureManager._features r.1.2 !! "health" = Some f
          ∧ FeatureManager.status f = "active")
  ∧ FeatureManager._features r.1.2 !! "broken" = None
  ∧ FeatureManager._features r.1.2 !! "demo" = None
  ∧ FeatureManager.total_features
      (FeatureManager.get_features_status
         (FeatureManager.register_features example_env no_routes
            [("broken", "features.broken")] FeatureManager.__init__ initial_state).1.2
         initial_state) = 0.
Proof.
  intros r.
  destruct (C7_register_features_fail_fast example_env no_routes
              FeatureManager.__init__ initial_state) as [Hseq Hone].
  pose (ok := FeatureManager.register_features example_env no_routes
                [("health", "features.health")] FeatureManager.__init__ initial_state).
  destruct (Hseq [("health", "features.health")] "broken" "features.broken"
              [("demo", "features.demo")] ok.1.2 ok.2
              (auto_discover_services example_env no_routes "features.broken" ok.2).2)
    as (Hr & Hrec & Hfr); [reflexivity | reflexivity |].
  cbn [app] in Hr. subst r. rewrite Hr. simpl. split_and!.
  - reflexivity.
  - destruct (Hrec "health" "features.health") as (f & Hf & Ha & _); [by left|].
    by exists f.
  - rewrite Hfr; [reflexivity|]. simpl. rewrite list_elem_of_singleton. discriminate.
  - rewrite Hfr; [reflexivity|]. simpl. rewrite list_elem_of_singleton. discriminate.
  - eapply (Hone "broken" "features.broken" broken_module).
    + reflexivity.
    + reflexivity.
    + intros obj w. simpl. discriminate.
Defined.

(** * Further properties of the code *)

(** ** Container: registrations, failures and instance identity *)

Lemma is_registered_true c (self : Container.t) :
  Container.is_registered c self = true
  ↔ is_Some (Container._services self !! c)
    ∨ is_Some (Container._singletons self !! c)
    ∨ is_Some (Container._factories self !! c).
Proof.
  unfold Container.is_registered. rewrite !orb_true_iff, !contains_spec. tauto.
Qed.

Lemma resolve_keeps_tables i (self : Container.t) w :
  Container._services (Container.resolve i self w).1.2 = Container._services self
  ∧ Container._factories (Container.resolve i self w).1.2 = Container._factories self.
Proof.
  unfold Container.resolve.
  destruct (contains (Container._singletons self) i); [done|].
  destruct (contains (Container._services self) i); simpl.
  - destruct (getitem (Container._services self) i) as [impl|e]; [|done].
    by destruct (impl w) as [[v|e] w'].
  - destruct (contains (Container._factories self) i); [|done].
    destruct (getitem (Container._factories self) i) as [f|e]; [|done]. by destruct (f w).
Qed.

Lemma step_keeps_registered c call st :
  call ≠ Container.Clear →
  Container.is_registered c st.1 = true →
  Container.is_registered c (Container.step call st).1 = true.
Proof.
  destruct st as [k w]. rewrite !is_registered_true.
  destruct call as [i impl s|i y|i f|i|i|]; simpl; intros Hc H; try done.
  - destruct s; simpl; rewrite lookup_insert_is_Some'; tauto.
  - rewrite lookup_insert_is_Some'. tauto.
  - rewrite lookup_insert_is_Some'. tauto.
  - destruct (resolve_keeps_tables i k w) as [Hs Hf].
    pose proof (resolve_keeps_instance c i k w) as Hi.
    destruct (Container.resolve i k w) as [[r k'] w']. simpl in *.
    rewrite Hs, Hf. destruct H as [H|[[x H]|H]]; auto.
    right. left. exists x. by apply Hi.
Qed.

(** X1. Nothing but [clear()] unregisters: a capability that is registered
    stays registered through any sequence of registrations and resolutions. *)
Theorem X1_registered_until_clear (c : string) (cs : list Container.call)
    (st : Container.t * world) :
  Container.Clear ∉ cs →
  Container.is_registered c st.1 = true →
  Container.is_registered c (Container.run cs st).1 = true.
Proof.
  revert st. induction cs as [|call cs IH]; intros st Hcs H; [done|].
  apply not_elem_of_cons in Hcs as [Hne Hcs]. simpl.
  apply IH; [done|]. apply step_keeps_registered; [congruence|done].
Qed.

Lemma X1_registered_until_clear_witness :
  Container.is_registered "IClock"
    (Container.run [Container.Resolve "IClock";
                    Container.Register "IClock" (new_object "Other") true;
                    Container.RegisterInstance "IHealthService" PyNone;
                    Container.Resolve "IMissing"]
       (example_container, w0)).1 = true.
Proof.
  apply X1_registered_until_clear.
  - rewrite !not_elem_of_cons. split_and!; try discriminate. apply not_elem_of_nil.
  - reflexivity.
Defined.

(** X2. A [resolve] that raises leaves the container as it was: nothing is
    cached for a singleton class whose constructor raised.  For a capability
    that is not registered the exception is the "not registered"
    [ValueError]. *)
Theorem X2_failed_resolve_changes_nothing (c : string) (self : Container.t)
    (w : world) (e : exn) :
  (Container.resolve c self w).1.1 = Raise e →
  (Container.resolve c self w).1.2 = self
  ∧ (Container.is_registered c self = false → e = Container.not_registered c)
  ∧ (Container.is_registered c self = true →
     ∃ (f : callable value),
       (Container._services self !! c = Some f ∨ Container._factories self !! c = Some f)
       ∧ (f w).1 = Raise e).
Proof.
  destruct (Container._singletons self !! c) as [x|] eqn:E1.
  { by rewrite (resolve_instance _ _ _ _ E1). }
  destruct (Container._services self !! c) as [impl|] eqn:E2.
  { rewrite (resolve_singleton_class _ _ _ _ E1 E2).
    destruct (impl w) as [[v|e'] w'] eqn:Ei; simpl; [done|]. intros [= ->].
    split_and!; [done| |].
    - intros (_ & H & _)%is_registered_false. congruence.
    - intros _. exists impl. rewrite Ei. auto. }
  destruct (Container._factories self !! c) as [f|] eqn:E3.
  { rewrite (resolve_factory _ _ _ _ E1 E2 E3). simpl. intros He.
    split_and!; [done| |].
    - intros (_ & _ & H)%is_registered_false. congruence.
    - intros _. exists f. auto. }
  assert (Container.is_registered c self = false) as Hn by by apply is_registered_false.
  rewrite (resolve_unregistered _ _ _ Hn). simpl. intros [= <-].
  split_and!; [done..|]. congruence.
Qed.

Lemma X2_failed_resolve_changes_nothing_witness :
  let k := Container.register "IHealthService"
             (λ w, (Raise (ValueError "psutil is missing"), w)) true Container.__init__ in
  (Container.resolve "IHealthService" k w0).1.2 = k
  ∧ (Container.resolve "IMissing" k w0).1.2 = k.
Proof.
  intros k. split.
  - apply (X2_failed_resolve_changes_nothing "IHealthService" k w0
             (ValueError "psutil is missing")). reflexivity.
  - apply (X2_failed_resolve_changes_nothing "IMissing" k w0
             (Container.not_registered "IMissing")). reflexivity.
Defined.

(** X3. The singleton cache is per capability, not per class: two
    capabilities registered with the same constructing class get two
    different instances, and each capability keeps its own from then on. *)
Theorem X3_singleton_per_capability (c1 c2 : string) (impl : callable value)
    (self : Container.t) (w : world) :
  c1 ≠ c2 →
  Container._singletons self !! c1 = None →
  Container._singletons self !! c2 = None →
  Container._services self !! c1 = Some impl →
  Container._services self !! c2 = Some impl →
  constructs impl →
  ∃ cls1 a1 k1 w1 cls2 a2 k2 w2,
    Container.resolve c1 self w = (Ok (PyObj cls1 a1), k1, w1)
    ∧ Container.resolve c2 k1 w1 = (Ok (PyObj cls2 a2), k2, w2)
    ∧ a1 ≠ a2
    ∧ (∀ w3, Container.resolve c1 k2 w3 = (Ok (PyObj cls1 a1), k2, w3))
    ∧ (∀ w3, Container.resolve c2 k2 w3 = (Ok (PyObj cls2 a2), k2, w3)).
Proof.
  intros Hne H1 H2 Hs1 Hs2 Hc.
  destruct (Hc w) as (cls1 & a1 & w1 & Hi1 & Hlo1 & Hhi1).
  destruct (Hc w1) as (cls2 & a2 & w2 & Hi2 & Hlo2 & Hhi2).
  set (k1 := Container.register_instance c1 (PyObj cls1 a1) self).
  set (k2 := Container.register_instance c2 (PyObj cls2 a2) k1).
  exists cls1, a1, k1, w1, cls2, a2, k2, w2. split_and!.
  - by rewrite (resolve_singleton_class _ _ _ _ H1 Hs1), Hi1.
  - rewrite (resolve_singleton_class c2 k1 w1 impl); [by rewrite Hi2| |done].
    simpl. by rewrite lookup_insert_ne.
  - lia.
  - intros w3. apply resolve_instance. simpl.
    rewrite lookup_insert_ne by done. apply lookup_insert_eq.
  - intros w3. apply resolve_instance. simpl. apply lookup_insert_eq.
Qed.

Lemma X3_singleton_per_capability_witness :
  let k := Container.register "IDiagnostics" (new_object "HealthService") true
             (Container.register "IHealthService" (new_object "HealthService") true
                Container.__init__) in
  ∃ cls1 a1 k1 w1 cls2 a2 k2 w2,
    Container.resolve "IHealthService" k w0 = (Ok (PyObj cls1 a1), k1, w1)
    ∧ Container.resolve "IDiagnostics" k1 w1 = (Ok (PyObj cls2 a2), k2, w2)
    ∧ a1 ≠ a2
    ∧ (∀ w3, Container.resolve "IHealthService" k2 w3 = (Ok (PyObj cls1 a1), k2, w3))
    ∧ (∀ w3, Container.resolve "IDiagnostics" k2 w3 = (Ok (PyObj cls2 a2), k2, w3)).
Proof.
  intros k.
  apply (X3_singleton_per_capability "IHealthService" "IDiagnostics"
           (new_object "HealthService") k w0);
    [discriminate | reflexivity.. | apply new_object_constructs].
Defined.

(** X4. A factory registration is never cached: with a factory that
    constructs, two resolutions in a row return two different objects and
    leave the container unchanged. *)
Theorem X4_factory_builds_each_time (c : string) (f : callable value)
    (self : Container.t) (w : world) :
  Container._singletons self !! c = None →
  Container._services self !! c = None →
  Container._factories self !! c = Some f →
  constructs f →
  ∃ cls1 a1 w1 cls2 a2 w2,
    Container.resolve c self w = (Ok (PyObj cls1 a1), self, w1)
    ∧ Container.resolve c self w1 = (Ok (PyObj cls2 a2), self, w2)
    ∧ a1 ≠ a2.
Proof.
  intros H1 H2 H3 Hc.
  destruct (Hc w) as (cls1 & a1 & w1 & Hi1 & Hlo1 & Hhi1).
  destruct (Hc w1) as (cls2 & a2 & w2 & Hi2 & Hlo2 & Hhi2).
  exists cls1, a1, w1, cls2, a2, w2.
  rewrite !(resolve_factory _ _ _ _ H1 H2 H3), Hi1, Hi2. split_and!; [done..|lia].
Qed.

Lemma X4_factory_builds_each_time_witness :
  ∃ cls1 a1 w1 cls2 a2 w2,
    Container.resolve "IClock" example_container w0
      = (Ok (PyObj cls1 a1), example_container, w1)
    ∧ Container.resolve "IClock" example_container w1
      = (Ok (PyObj cls2 a2), example_container, w2)
    ∧ a1 ≠ a2.
Proof.
  apply (X4_factory_builds_each_time "IClock" (new_object "Clock") example_container w0);
    [reflexivity.. | apply new_object_constructs].
Defined.

(** ** SingletonRegistry: shared factories, reset_all, what is cached *)

(** X5. Two names registered with one factory object share its instance,
    and resetting through either name resets it for both. *)
Theorem X5_names_share_a_factory (n1 n2 : string) (self : SingletonRegistry.t)
    (h : SingletonRegistry.store) (w : world) (r : addr) (f : SingletonFactory.t) :
  SingletonRegistry._factories self !! n1 = Some r →
  SingletonRegistry._factories self !! n2 = Some r →
  h !! r = Some f →
  constructs (SingletonFactory._factory_func f) →
  allocated w (SingletonFactory._instance f) →
  ∃ c1 a1 h1 w1 c2 a2 h2 w2,
    SingletonRegistry.get_instance n1 self h w = (Ok (PyObj c1 a1), h1, w1)
    ∧ SingletonRegistry.get_instance n2 self h1 w1 = (Ok (PyObj c1 a1), h1, w1)
    ∧ SingletonRegistry.get_instance n1 self
        (SingletonRegistry.reset_instance n2 self h1) w1
      = (Ok (PyObj c2 a2), h2, w2)
    ∧ a2 ≠ a1.
Proof.
  intros H1 H2 Hr Hc Ha.
  destruct (factory_get_constructs f w Hc Ha)
    as (c1 & a1 & f' & w1 & Hg & Hi & Hff & Hlt & _).
  pose (g := SingletonFactory.reset_instance f').
  destruct (factory_get_constructs g w1) as (c2 & a2 & g' & w2 & Hg2 & _ & _ & _ & Hge).
  { unfold g. simpl. by rewrite Hff. }
  { done. }
  exists c1, a1, (<[r:=f']> h), w1, c2, a2. eexists _, w2.
  rewrite (registry_get_registered _ _ _ _ _ _ H1 Hr), Hg. split_and!; [done| | |].
  - rewrite (registry_get_registered _ _ _ _ r f' H2 (lookup_insert_eq _ _ _)).
    rewrite (factory_get_cached _ _ _ _ Hi). by rewrite insert_insert_eq.
  - rewrite (registry_reset_registered _ _ _ r f' H2 (lookup_insert_eq _ _ _)).
    rewrite (registry_get_registered _ _ _ _ r g H1 (lookup_insert_eq _ _ _)).
    fold g. by rewrite Hg2.
  - specialize (Hge eq_refl). lia.
Qed.

Lemma X5_names_share_a_factory_witness :
  let reg := SingletonRegistry.register_factory "di"  0
               (SingletonRegistry.register_factory "container" 0
                  SingletonRegistry.__init__) in
  let h : SingletonRegistry.store :=
    {[ 0 := SingletonFactory.__init__ (new_object "Container") ]} in
  let w := (allocate w0).2 in
  ∃ c1 a1 h1 w1 c2 a2 h2 w2,
    SingletonRegistry.get_instance "container" reg h w = (Ok (PyObj c1 a1), h1, w1)
    ∧ SingletonRegistry.get_instance "di" reg h1 w1 = (Ok (PyObj c1 a1), h1, w1)
    ∧ SingletonRegistry.get_instance "container" reg
        (SingletonRegistry.reset_instance "di" reg h1) w1
      = (Ok (PyObj c2 a2), h2, w2)
    ∧ a2 ≠ a1.
Proof.
  intros reg h w.
  apply (X5_names_share_a_factory "container" "di" reg h w 0
           (SingletonFactory.__init__ (new_object "Container")));
    [reflexivity | reflexivity | reflexivity | apply new_object_constructs | exact I].
Defined.

Lemma reset_fold_lookup (l : list addr) (h : SingletonRegistry.store) (r : addr) :
  foldr (λ factory h, <[factory := SingletonFactory.reset_instance (h !!! factory)]> h)
        h l !! r
  = if decide (r ∈ l) then Some (SingletonFactory.reset_instance (h !!! r)) else h !! r.
Proof.
  induction l as [|x l IH]; cbn [foldr].
  - destruct (decide (r ∈ [])) as [H|H]; [by apply elem_of_nil in H|done].
  - destruct (decide (r ∈ x :: l)) as [Hin|Hnin].
    + destruct (decide (x = r)) as [->|Hne].
      * rewrite lookup_insert_eq. f_equal. destruct (decide (r ∈ l)) as [Hl|Hl].
        -- by rewrite (lookup_total_correct _ _ _ IH).
        -- by rewrite !lookup_total_alt, IH.
      * rewrite lookup_insert_ne by done. rewrite IH.
        apply elem_of_cons in Hin as [->|Hin]; [done|]. by rewrite decide_True.
    + apply not_elem_of_cons in Hnin as [Hne Hnin].
      rewrite lookup_insert_ne by done. rewrite IH. by rewrite decide_False.
Qed.

Lemma elem_of_factory_refs (self : SingletonRegistry.t) r :
  r ∈ (map_to_list (SingletonRegistry._factories self)).*2
  ↔ ∃ n, SingletonRegistry._factories self !! n = Some r.
Proof.
  rewrite list_elem_of_fmap. split.
  - intros ([n r'] & -> & H). exists n. by apply elem_of_map_to_list in H.
  - intros (n & H). exists (n, r). split; [done|]. by apply elem_of_map_to_list.
Qed.

(** X6. [reset_all] empties the cache of every registered factory, keeps its
    function and its registration, and leaves the factory objects that are
    not registered alone; so the next [get_instance] of any registered name
    builds a new object. *)
Theorem X6_reset_all_empties_every_cache (self : SingletonRegistry.t)
    (h : SingletonRegistry.store) :
  (∀ n r f,
      SingletonRegistry._factories self !! n = Some r → h !! r = Some f →
      SingletonRegistry.reset_all self h !! r = Some (SingletonFactory.reset_instance f))
  ∧ (∀ r, (∀ n, SingletonRegistry._factories self !! n ≠ Some r) →
          SingletonRegistry.reset_all self h !! r = h !! r)
  ∧ (∀ n r f w,
      SingletonRegistry._factories self !! n = Some r → h !! r = Some f →
      constructs (SingletonFactory._factory_func f) →
      ∃ cls a h' w',
        SingletonRegistry.get_instance n self (SingletonRegistry.reset_all self h) w
        = (Ok (PyObj cls a), h', w')
        ∧ next_id w ≤ a).
Proof.
  assert (∀ n r f,
      SingletonRegistry._factories self !! n = Some r → h !! r = Some f →
      SingletonRegistry.reset_all self h !! r = Some (SingletonFactory.reset_instance f))
    as Hreg.
  { intros n r f Hn Hr. unfold SingletonRegistry.reset_all.
    rewrite reset_fold_lookup, decide_True.
    - by rewrite (lookup_total_correct _ _ _ Hr).
    - apply elem_of_factory_refs. eauto. }
  split_and!; [done| |].
  - intros r Hr. unfold SingletonRegistry.reset_all.
    rewrite reset_fold_lookup, decide_False; [done|].
    intros (n & Hn)%elem_of_factory_refs. by apply (Hr n).
  - intros n r f w Hn Hr Hc.
    destruct (factory_get_constructs (SingletonFactory.reset_instance f) w)
      as (cls & a & g' & w' & Hg & _ & _ & _ & Hge); [done..|].
    exists cls, a. eexists _, w'.
    rewrite (registry_get_registered _ _ _ _ _ _ Hn (Hreg n r f Hn Hr)), Hg.
    split; [done|]. by apply Hge.
Qed.

Lemma X6_reset_all_empties_every_cache_witness :
  let reg := SingletonRegistry.register_factory "container" 0 SingletonRegistry.__init__ in
  let h : SingletonRegistry.store :=
    {[ 0 := {| SingletonFactory._factory_func := new_object "Container";
               SingletonFactory._instance := PyObj "Container" 1 |} ]} in
  SingletonRegistry.reset_all reg h !! 0
    = Some (SingletonFactory.__init__ (new_object "Container"))
  ∧ SingletonRegistry.reset_all reg h !! 5 = None.
Proof.
  intros reg h. destruct (X6_reset_all_empties_every_cache reg h) as (H1 & H2 & _). split.
  - apply (H1 "container" 0
             {| SingletonFactory._factory_func := new_object "Container";
                SingletonFactory._instance := PyObj "Container" 1 |}); reflexivity.
  - rewrite H2; [reflexivity|]. intros n. simpl.
    destruct (decide (n = "container")) as [->|Hne].
    + rewrite lookup_insert_eq. discriminate.
    + rewrite lookup_insert_ne by done. rewrite lookup_empty. discriminate.
Defined.

(** X7. Only an object is ever cached.  When the factory function raises,
    [get_instance] raises the same exception, and when it returns [None],
    [get_instance] returns [None]; in both cases the store is unchanged, so
    the next call runs the factory function again. *)
Theorem X7_failure_and_none_are_not_cached (x : string) (self : SingletonRegistry.t)
    (h : SingletonRegistry.store) (w : world) (r : addr) (f : SingletonFactory.t) :
  SingletonRegistry._factories self !! x = Some r →
  h !! r = Some f →
  SingletonFactory._instance f = PyNone →
  (∀ e w', SingletonFactory._factory_func f w = (Raise e, w') →
           SingletonRegistry.get_instance x self h w = (Raise e, h, w'))
  ∧ (∀ w', SingletonFactory._factory_func f w = (Ok PyNone, w') →
           SingletonRegistry.get_instance x self h w = (Ok PyNone, h, w')).
Proof.
  intros Hx Hr Hi. split.
  - intros e w' Hf.
    rewrite (registry_get_registered _ _ _ _ _ _ Hx Hr), (factory_get_empty _ _ Hi), Hf.
    by rewrite insert_id.
  - intros w' Hf.
    rewrite (registry_get_registered _ _ _ _ _ _ Hx Hr), (factory_get_empty _ _ Hi), Hf.
    rewrite insert_id; [done|]. rewrite Hr. f_equal. destruct f. simpl in *. by subst.
Qed.

Lemma X7_failure_and_none_are_not_cached_witness :
  let reg := SingletonRegistry.register_factory "web_api" 0 SingletonRegistry.__init__ in
  let h : SingletonRegistry.store :=
    {[ 0 := SingletonFactory.__init__ (λ w, (Raise (ValueError "no eel"), w)) ]} in
  SingletonRegistry.get_instance "web_api" reg h w0 = (Raise (ValueError "no eel"), h, w0).
Proof.
  intros reg h.
  apply (X7_failure_and_none_are_not_cached "web_api" reg h w0 0
           (SingletonFactory.__init__ (λ w, (Raise (ValueError "no eel"), w))));
    reflexivity.
Defined.

(** ** BaseService: feature names, the initialisation flag, input validation *)

Lemma string_length_app (p s : string) :
  String.length (p +:+ s) = String.length p + String.length s.
Proof. induction p as [|c p IH]; simpl; [done|]. by rewrite IH. Qed.

Lemma substring_whole (s : string) : String.substring 0 (String.length s) s = s.
Proof. induction s as [|c s IH]; simpl; [done|]. by rewrite IH. Qed.

Lemma substring_app_prefix (p s : string) :
  String.substring 0 (String.length p) (p +:+ s) = p.
Proof.
  induction p as [|c p IH]; simpl.
  - by destruct s.
  - by rewrite IH.
Qed.

Lemma substring_app_suffix (p s : string) :
  String.substring (String.length p) (String.length s) (p +:+ s) = s.
Proof. induction p as [|c p IH]; simpl; [apply substring_whole | done]. Qed.

Lemma endswith_app (p s : string) : endswith (p +:+ s) s = true.
Proof.
  unfold endswith. rewrite string_length_app. apply andb_true_iff. split.
  - apply Nat.leb_le. lia.
  - apply bool_decide_eq_true.
    replace (String.length p + String.length s - String.length s) with (String.length p)
      by lia.
    apply substring_app_suffix.
Qed.

Lemma ascii_lower_idemp (c : Ascii.ascii) : ascii_lower (ascii_lower c) = ascii_lower c.
Proof. destruct c as [[] [] [] [] [] [] [] []]; reflexivity. Qed.

Lemma lower_idemp (s : string) : lower (lower s) = lower s.
Proof.
  induction s as [|c s IH]; simpl; [done|]. by rewrite ascii_lower_idemp, IH.
Qed.

(** X8. The feature name derived from a class name is the class name in
    lower case, without its [Service] suffix when it has one; it contains no
    upper-case letter.  A service built without a feature name, or with an
    empty one, gets the derived name; a non-empty name given to the
    constructor is kept as it is. *)
Theorem X8_derived_feature_name :
  (∀ p, BaseService._derive_feature_name (p +:+ "Service") = lower p)
  ∧ (∀ n, endswith n "Service" = false → BaseService._derive_feature_name n = lower n)
  ∧ (∀ n, lower (BaseService._derive_feature_name n) = BaseService._derive_feature_name n)
  ∧ (∀ cls, BaseService.feature_name (BaseService.__init__ cls None)
            = BaseService._derive_feature_name cls
            ∧ BaseService.feature_name (BaseService.__init__ cls (Some ""))
              = BaseService._derive_feature_name cls)
  ∧ (∀ cls n, n ≠ "" →
              BaseService.feature_name (BaseService.__init__ cls (Some n)) = n).
Proof.
  split_and!.
  - intros p. unfold BaseService._derive_feature_name.
    rewrite endswith_app, string_length_app.
    replace (String.length p + String.length "Service" - 7) with (String.length p)
      by (simpl; lia).
    by rewrite substring_app_prefix.
  - intros n H. unfold BaseService._derive_feature_name. by rewrite H.
  - intros n. unfold BaseService._derive_feature_name. apply lower_idemp.
  - intros cls. split; reflexivity.
  - intros cls n Hn. unfold BaseService.feature_name, BaseService.__init__. simpl.
    by rewrite bool_decide_eq_false_2.
Qed.

Lemma X8_derived_feature_name_witness :
  BaseService._derive_feature_name "HealthService" = "health"
  ∧ BaseService._derive_feature_name "Metrics" = "metrics"
  ∧ BaseService.feature_name (BaseService.__init__ "HealthService" (Some "status"))
    = "status".
Proof.
  destruct X8_derived_feature_name as (H1 & H2 & _ & _ & H5). split_and!.
  - apply (H1 "Health").
  - apply H2. reflexivity.
  - apply H5. discriminate.
Defined.

Lemma initialize_keeps_name (hook : callable unit) (self : BaseService.t) w :
  BaseService._feature_name (BaseService.initialize hook self w).1.2
  = BaseService._feature_name self.
Proof.
  destruct (initialize_cases hook self w) as [(e & w1 & _ & ->)|(u & w1 & _ & ->)]; done.
Qed.

(** X9. Calls of [initialize()] never raise, never change the feature name
    of the service, and never take the flag back: a service that is
    initialised stays so, even when a later call finds the hook raising. *)
Theorem X9_initialized_is_kept (hook : callable unit) (n : nat)
    (self : BaseService.t) (w : world) :
  let calls := initialize_calls hook n self w in
  (∀ r, r ∈ calls.1.1 → ∃ b, r = Ok b)
  ∧ BaseService._feature_name calls.1.2 = BaseService._feature_name self
  ∧ (BaseService.is_initialized self = true →
     BaseService.is_initialized calls.1.2 = true).
Proof.
  intros calls. subst calls. split_and!.
  - revert self w. induction n as [|n IH]; intros self w r; simpl.
    + by intros ?%elem_of_nil.
    + pose proof (initialize_cases hook self w) as Hc.
      destruct (BaseService.initialize hook self w) as [[r0 self'] w'] eqn:E.
      specialize (IH self' w').
      destruct (initialize_calls hook n self' w') as [[rs self''] w'']. simpl in *.
      intros [->|Hr]%elem_of_cons; [|by apply IH].
      destruct Hc as [(? & ? & _ & [= -> _ _])|(? & ? & _ & [= -> _ _])]; eauto.
  - revert self w. induction n as [|n IH]; intros self w; simpl; [done|].
    pose proof (initialize_keeps_name hook self w) as Hk.
    destruct (BaseService.initialize hook self w) as [[r0 self'] w'] eqn:E.
    specialize (IH self' w').
    destruct (initialize_calls hook n self' w') as [[rs self''] w'']. simpl in *.
    congruence.
  - intros H. apply initialize_calls_flag. by left.
Qed.

Lemma X9_initialized_is_kept_witness :
  let self := {| BaseService._feature_name := "health";
                 BaseService._is_initialized := true |} in
  BaseService.is_initialized (initialize_calls failing_hook 3 self w0).1.2 = true.
Proof.
  intros self. apply (X9_initialized_is_kept failing_hook 3 self w0). reflexivity.
Defined.



(** ** The Service decorator and the detector *)

Lemma ascii_lower_fixed (c : Ascii.ascii) : ascii_lower c = c → is_upper c = false.
Proof. destruct c as [[] [] [] [] [] [] [] []]; vm_compute; congruence. Qed.

Lemma insert_underscores_lower (b : bool) (s : string) :
  lower s = s → insert_underscores b s = s.
Proof.
  revert b. induction s as [|c s IH]; intros b; simpl; [done|].
  intros [= Hc Hs]. rewrite (ascii_lower_fixed c Hc), andb_false_r. by rewrite IH.
Qed.

(** X11. The default service name [_camel_to_snake] makes of a class name
    has no upper-case letter, begins with the first letter of the class
    name in lower case (no underscore is put in front), and is the name
    itself when the name has no upper-case letter. *)
Theorem X11_camel_to_snake :
  (∀ s, lower (_camel_to_snake s) = _camel_to_snake s)
  ∧ (∀ c s, ∃ rest, _camel_to_snake (String c s) = String (ascii_lower c) rest)
  ∧ (∀ s, lower s = s → _camel_to_snake s = s).
Proof.
  unfold _camel_to_snake. split_and!.
  - intros s. apply lower_idemp.
  - intros c s. simpl. eauto.
  - intros s Hs. by rewrite (insert_underscores_lower false s Hs).
Qed.

Lemma X11_camel_to_snake_witness :
  _camel_to_snake "health_service" = "health_service"
  ∧ _camel_to_snake "HealthService" = "health_service"
  ∧ _camel_to_snake "HTTPServer2Go" = "httpserver2_go".
Proof.
  split_and!.
  - apply X11_camel_to_snake. reflexivity.
  - reflexivity.
  - reflexivity.
Defined.

(** X12. Decorating is what makes a service visible: a class that inherits
    from [BaseService] and is not [BaseService] is detected as a service
    class once [@Service] is applied, whatever the name given, and is not
    detected while it has no marker.  The marker is the name given to the
    decorator when it is not empty, and the snake-case class name
    otherwise. *)
Theorem X12_decorated_class_is_detected (name : option string) (c : pyclass) :
  "BaseService" ∈ __name__ <$> __mro__ c →
  __name__ (cls_type c) ≠ "BaseService" →
  BaseServiceDetector.is_service_class (MClass (Service name c)) = true
  ∧ (_service_name c = None → BaseServiceDetector.is_service_class (MClass c) = false)
  ∧ (∀ n, name = Some n → n ≠ "" → _service_name (Service name c) = Some n)
  ∧ (name = None ∨ name = Some "" →
     _service_name (Service name c) = Some (_camel_to_snake (__name__ (cls_type c)))).
Proof.
  intros Hm Hn. split_and!.
  - apply is_service_class_spec. simpl. split_and!; [done..|]. eauto.
  - intros H. apply not_true_is_false. intros (_ & _ & [x Hx])%is_service_class_spec.
    congruence.
  - intros n -> Hne. simpl. by rewrite bool_decide_eq_false_2.
  - intros [->| ->]; reflexivity.
Qed.

Lemma X12_decorated_class_is_detected_witness :
  let c := derived_service "HealthService" [IHealthService_type]
             BaseService._initialize_specific in
  BaseServiceDetector.is_service_class (MClass (Service None c)) = true
  ∧ BaseServiceDetector.is_service_class (MClass c) = false
  ∧ _service_name (Service None c) = Some "health_service".
Proof.
  intros c.
  destruct (X12_decorated_class_is_detected None c) as (H1 & H2 & _ & H4).
  - simpl. rewrite !elem_of_cons. auto.
  - discriminate.
  - split_and!; [exact H1 | apply H2; reflexivity | apply H4; by left].
Defined.

Lemma sorted_by_name_unique (l1 l2 : namespace) :
  StronglySorted name_le l1 → StronglySorted name_le l2 →
  l1 ≡ₚ l2 → NoDup l1.*1 → l1 = l2.
Proof.
  revert l2. induction l1 as [|x l1 IH]; intros l2 Hs1 Hs2 Hp Hd.
  { by apply Permutation_nil_l in Hp. }
  destruct l2 as [|y l2]; [by apply Permutation_nil_r in Hp|].
  apply StronglySorted_cons in Hs1 as [Hx Hs1]. apply StronglySorted_cons in Hs2 as [Hy Hs2].
  rewrite fmap_cons in Hd. apply NoDup_cons in Hd as [Hnx Hd].
  assert (x = y) as ->.
  { assert (x ∈ y :: l2) as Hxin by (rewrite <-Hp; by left).
    assert (y ∈ x :: l1) as Hyin by (rewrite Hp; by left).
    apply elem_of_cons in Hxin as [?|Hxin]; [done|].
    apply elem_of_cons in Hyin as [?|Hyin]; [done|].
    rewrite Forall_forall in Hx, Hy.
    pose proof (Hx y Hyin) as Hle1. pose proof (Hy x Hxin) as Hle2.
    unfold name_le in *.
    assert (x.1 = y.1) as Heq by (by apply (anti_symm String.le)).
    exfalso. apply Hnx. rewrite Heq. apply list_elem_of_fmap. by exists y. }
  f_equal. apply IH; [done..| |done]. by apply Permutation_cons_inv in Hp.
Qed.

(** X13. What [get_service_classes] returns does not depend on the order in
    which the module declares its members: two namespaces with the same
    members, each under one name, give the same list. *)
Theorem X13_detection_ignores_declaration_order (m1 m2 : namespace) :
  m1 ≡ₚ m2 → NoDup m1.*1 →
  BaseServiceDetector.get_service_classes m1 = BaseServiceDetector.get_service_classes m2.
Proof.
  intros Hp Hd. rewrite !get_service_classes_omap. f_equal.
  unfold getmembers. apply sorted_by_name_unique.
  - apply (StronglySorted_merge_sort name_le).
  - apply (StronglySorted_merge_sort name_le).
  - rewrite !merge_sort_Permutation. by rewrite Hp.
  - rewrite merge_sort_Permutation.
    eapply sublist_NoDup; [exact Hd|]. apply fmap_sublist, sublist_filter.
Qed.

Lemma X13_detection_ignores_declaration_order_witness :
  BaseServiceDetector.get_service_classes example_module
  = BaseServiceDetector.get_service_classes (reverse example_module).
Proof.
  apply X13_detection_ignores_declaration_order.
  - by rewrite reverse_Permutation.
  - apply (bool_decide_unpack _). vm_compute. exact I.
Defined.

(** ** Interface detection and registration in the plain container *)

Lemma endswith_length (s p : string) :
  endswith s p = true → String.length p ≤ String.length s.
Proof. unfold endswith. intros [H _]%andb_true_iff. by apply Nat.leb_le. Qed.

Lemma is_interface_in_mro_spec (c : pytype) :
  AbstractMethodInterfaceStrategy._is_interface_in_mro c = true
  ↔ AbstractMethodInterfaceStrategy._is_interface c = true
    ∧ AbstractMethodInterfaceStrategy._follows_interface_naming_convention c = true.
Proof.
  unfold AbstractMethodInterfaceStrategy._is_interface_in_mro,
    AbstractMethodInterfaceStrategy._is_interface.
  by rewrite !andb_true_iff.
Qed.

(** X14. The default strategy never raises.  What it detects has abstract
    methods and is not [BaseService]; it is a direct base class, or a class
    of the linearisation whose name starts with [I] and has more than one
    letter (the test on the [Service] suffix never decides).  Every direct
    base that is an interface is detected, and one that also passes the test
    of the linearisation is listed twice. *)
Theorem X14_detected_interfaces (service_class : pyclass) :
  (∀ c, AbstractMethodInterfaceStrategy._follows_interface_naming_convention c
        = startswith (__name__ c) "I" && (1 <? String.length (__name__ c)))
  ∧ ∃ interfaces,
      AbstractMethodInterfaceStrategy.get_interfaces service_class = Ok interfaces
      ∧ (∀ c, c ∈ interfaces →
              AbstractMethodInterfaceStrategy.has_abstract_methods c = true
              ∧ __name__ c ≠ "BaseService"
              ∧ (c ∈ __bases__ service_class
                 ∨ (c ∈ __mro__ service_class
                    ∧ startswith (__name__ c) "I" = true
                    ∧ 1 < String.length (__name__ c))))
      ∧ (∀ c, c ∈ __bases__ service_class →
              AbstractMethodInterfaceStrategy._is_interface c = true →
              c ∈ interfaces)
      ∧ (∀ c, c ∈ __bases__ service_class → c ∈ __mro__ service_class →
              AbstractMethodInterfaceStrategy._is_interface_in_mro c = true →
              ∃ l1 l2 l3, interfaces = l1 ++ c :: l2 ++ c :: l3).
Proof.
  assert (∀ c, AbstractMethodInterfaceStrategy._follows_interface_naming_convention c
               = startswith (__name__ c) "I" && (1 <? String.length (__name__ c))) as Hconv.
  { intros c. unfold AbstractMethodInterfaceStrategy._follows_interface_naming_convention.
    destruct (startswith (__name__ c) "I"); [|done]. simpl.
    destruct (endswith (__name__ c) "Service") eqn:E; [|done]. simpl.
    apply endswith_length in E. simpl in E. symmetry. apply Nat.ltb_lt. lia. }
  split; [done|]. eexists. split; [reflexivity|]. split_and!.
  - intros c [Hc|Hc]%elem_of_app.
    + apply list_elem_of_filter in Hc as [Hi Hc].
      unfold AbstractMethodInterfaceStrategy._is_interface in Hi.
      apply andb_true_iff in Hi as [Ha Hn].
      apply negb_true_iff, bool_decide_eq_false in Hn. auto.
    + apply list_elem_of_filter in Hc as [Hi Hc].
      apply is_interface_in_mro_spec in Hi as [Hi Hv]. rewrite Hconv in Hv.
      unfold AbstractMethodInterfaceStrategy._is_interface in Hi.
      apply andb_true_iff in Hi as [Ha Hn]. apply andb_true_iff in Hv as [Hv1 Hv2].
      apply negb_true_iff, bool_decide_eq_false in Hn. apply Nat.ltb_lt in Hv2.
      split_and!; [done..|]. right. done.
  - intros c Hc Hi. apply elem_of_app. left. by apply list_elem_of_filter.
  - intros c Hb Hm Hi.
    assert (c ∈ filter (λ c, AbstractMethodInterfaceStrategy._is_interface c = true)
                  (__bases__ service_class)) as H1.
    { apply list_elem_of_filter. split; [|done]. by apply is_interface_in_mro_spec in Hi as [? _]. }
    assert (c ∈ filter (λ c, AbstractMethodInterfaceStrategy._is_interface_in_mro c = true)
                  (__mro__ service_class)) as H2.
    { by apply list_elem_of_filter. }
    apply list_elem_of_split in H1 as (l1 & l2 & ->).
    apply list_elem_of_split in H2 as (l3 & l4 & ->).
    exists l1, (l2 ++ l3), l4. by rewrite <-!app_assoc.
Qed.

Lemma X14_detected_interfaces_witness :
  ∃ l1 l2 l3,
    AbstractMethodInterfaceStrategy.get_interfaces HealthService_class
    = Ok (l1 ++ IHealthService_type :: l2 ++ IHealthService_type :: l3).
Proof.
  destruct (X14_detected_interfaces HealthService_class) as (_ & l & Hl & _ & _ & H).
  destruct (H IHealthService_type) as (l1 & l2 & l3 & ->).
  - simpl. rewrite !elem_of_cons. auto.
  - simpl. rewrite !elem_of_cons. auto 6.
  - reflexivity.
  - by exists l1, l2, l3.
Defined.

Lemma container_register_loop (interfaces : list pytype) (inst : value) (n : nat)
    (k : Container.t) :
  InterfaceRegistrationManager.register_loop interfaces inst n k
  = (n + length interfaces,
     foldl (λ k i, Container.register_instance (__name__ i) inst k) k interfaces).
Proof.
  revert n k. induction interfaces as [|i l IH]; intros n k; simpl.
  - f_equal. lia.
  - rewrite IH. f_equal. lia.
Qed.

Lemma container_fold_tables (interfaces : list pytype) (inst : value) (k : Container.t) :
  let k' := foldl (λ k i, Container.register_instance (__name__ i) inst k) k interfaces in
  Container._services k' = Container._services k
  ∧ Container._factories k' = Container._factories k
  ∧ (∀ c, c ∈ interfaces → Container._singletons k' !! __name__ c = Some inst)
  ∧ (∀ n, n ∉ __name__ <$> interfaces →
          Container._singletons k' !! n = Container._singletons k !! n)
  ∧ (∀ n, Container._singletons k !! n = Some inst →
          Container._singletons k' !! n = Some inst).
Proof.
  revert k. induction interfaces as [|i l IH]; intros k; simpl.
  - split_and!; [done..| |done|done]. by intros c ?%elem_of_nil.
  - destruct (IH (Container.register_instance (__name__ i) inst k))
      as (Hs & Hf & Hin & Hout & Hkeep). simpl in *.
    split_and!; [done|done| | |].
    + intros c [->|Hc]%elem_of_cons; [|by apply Hin].
      apply Hkeep. apply lookup_insert_eq.
    + intros n [Hne Hn]%not_elem_of_cons. rewrite Hout by done.
      by rewrite lookup_insert_ne.
    + intros n Hn. apply Hkeep. destruct (decide (__name__ i = n)) as [->|Hne].
      * apply lookup_insert_eq.
      * by rewrite lookup_insert_ne.
Qed.

(** X15. With the plain [Container], which accepts every registration,
    [register_service_interfaces] returns true for whatever the strategy
    detects; afterwards every detected capability resolves to the service
    instance, the capabilities that were not detected resolve as before, and
    no class or factory registration has been touched.  When the strategy
    itself raises, the result is false and the container is unchanged. *)
Theorem X15_interfaces_in_plain_container
    (strategy : pyclass → result (list pytype)) (service_class : pyclass)
    (service_instance : value) (container : Container.t) :
  let r := InterfaceRegistrationManager.register_service_interfaces
             strategy service_class service_instance container in
  (∀ interfaces, strategy service_class = Ok interfaces →
      r.1 = true
      ∧ (∀ c w, c ∈ interfaces →
                Container.resolve (__name__ c) r.2 w = (Ok service_instance, r.2, w))
      ∧ (∀ n, n ∉ __name__ <$> interfaces →
              Container._singletons r.2 !! n = Container._singletons container !! n)
      ∧ Container._services r.2 = Container._services container
      ∧ Container._factories r.2 = Container._factories container)
  ∧ (∀ e, strategy service_class = Raise e → r = (false, container)).
Proof.
  intros r. subst r.
  unfold InterfaceRegistrationManager.register_service_interfaces. split.
  - intros interfaces ->. rewrite container_register_loop.
    destruct (container_fold_tables interfaces service_instance container)
      as (Hs & Hf & Hin & Hout & _).
    simpl. split_and!; [|by intros; apply resolve_instance, Hin|done..].
    destruct interfaces; [done|]. by apply Nat.eqb_eq.
  - by intros e ->.
Qed.

Lemma X15_interfaces_in_plain_container_witness :
  let r := InterfaceRegistrationManager.register_service_interfaces
             AbstractMethodInterfaceStrategy.get_interfaces HealthService_class
             (PyObj "HealthService" 0) example_container in
  r.1 = true
  ∧ Container.resolve "IDiagnostics" r.2 w0 = (Ok (PyObj "HealthService" 0), r.2, w0).
Proof.
  intros r.
  destruct (X15_interfaces_in_plain_container
              AbstractMethodInterfaceStrategy.get_interfaces HealthService_class
              (PyObj "HealthService" 0) example_container) as [H _].
  destruct (H _ eq_refl) as (H1 & H2 & _). split; [exact H1|].
  apply (H2 IDiagnostics_type w0). simpl. rewrite !elem_of_cons. auto.
Defined.

(** ** ServiceRegistry *)

Lemma dict_get_setitem_ne {V} k k' (v : V) d :
  k ≠ k' → dict_get k' (dict_setitem k v d) = dict_get k' d.
Proof.
  intros Hne. induction d as [|[k0 v0] d IH]; simpl.
  - by rewrite bool_decide_eq_false_2.
  - case_bool_decide as E; simpl.
    + subst k0. by rewrite !bool_decide_eq_false_2.
    + by rewrite IH.
Qed.

Lemma dict_get_is_Some {V} k (d : list (string * V)) :
  is_Some (dict_get k d) ↔ k ∈ dict_keys d.
Proof.
  unfold dict_keys. induction d as [|[k0 v0] d IH]; simpl.
  - rewrite elem_of_nil. split; [by intros [? ?]|done].
  - rewrite elem_of_cons. case_bool_decide as E.
    + subst. split; eauto.
    + rewrite IH. split; [auto|]. intros [?|?]; [congruence|done].
Qed.

Lemma dict_keys_setitem {V} k (v : V) d :
  dict_keys (dict_setitem k v d)
  = if decide (k ∈ dict_keys d) then dict_keys d else dict_keys d ++ [k].
Proof.
  unfold dict_keys. induction d as [|[k0 v0] d IH].
  - simpl. destruct (decide (k ∈ [])) as [H|H]; [by apply elem_of_nil in H|done].
  - destruct (decide (k ∈ ((k0, v0) :: d).*1)) as [Hin|Hnin];
      rewrite fmap_cons in *; cbn [dict_setitem fst].
    + case_bool_decide as E; [by subst|].
      apply elem_of_cons in Hin as [Hk|Hin]; [simpl in Hk; congruence|].
      rewrite fmap_cons, IH. by rewrite decide_True.
    + apply not_elem_of_cons in Hnin as [Hne Hnin]. simpl in Hne.
      rewrite bool_decide_eq_false_2 by congruence.
      rewrite fmap_cons, IH. by rewrite decide_False.
Qed.

(** X16. What [register_service] stores can be read back: the call returns
    true, [get_service] returns the instance and [service_exists] is true for
    the name, the container resolves the class of the instance to it, and
    the services under other names are as before.  A name that was never
    registered gives [None]. *)
Theorem X16_register_service_round_trip (service_name : string)
    (service_instance : value) (self : ServiceRegistry.t) :
  let r := ServiceRegistry.register_service service_name service_instance self in
  r.1 = true
  ∧ ServiceRegistry.get_service service_name r.2 = service_instance
  ∧ ServiceRegistry.service_exists service_name r.2 = true
  ∧ (∀ w, Container.resolve (type_name service_instance) (ServiceRegistry._container r.2) w
          = (Ok service_instance, ServiceRegistry._container r.2, w))
  ∧ (∀ other, other ≠ service_name →
        ServiceRegistry.get_service other r.2 = ServiceRegistry.get_service other self
        ∧ ServiceRegistry.service_exists other r.2
          = ServiceRegistry.service_exists other self)
  ∧ (∀ other, ServiceRegistry.service_exists other self = false →
        ServiceRegistry.get_service other self = PyNone).
Proof.
  intros r. subst r.
  unfold ServiceRegistry.get_service, ServiceRegistry.service_exists. simpl.
  rewrite dict_get_setitem. split_and!; [done..| | |].
  - intros w. apply resolve_instance. simpl. apply lookup_insert_eq.
  - intros other Hne. by rewrite dict_get_setitem_ne.
  - intros other H. apply bool_decide_eq_false in H.
    destruct (dict_get other _) eqn:E; [|done]. exfalso. apply H. eauto.
Qed.

Lemma X16_register_service_round_trip_witness :
  let r := ServiceRegistry.register_service "health" (PyObj "HealthService" 4)
             (ServiceRegistry.__init__ example_container) in
  ServiceRegistry.get_service "health" r.2 = PyObj "HealthService" 4
  ∧ ServiceRegistry.get_service "metrics" r.2 = PyNone.
Proof.
  intros r.
  destruct (X16_register_service_round_trip "health" (PyObj "HealthService" 4)
              (ServiceRegistry.__init__ example_container)) as (_ & H & _ & _ & _ & _).
  destruct (X16_register_service_round_trip "x" PyNone r.2) as (_ & _ & _ & _ & _ & H').
  split; [exact H|]. apply H'. reflexivity.
Defined.

(** X17. The registry holds one entry per name, in the order of first
    registration: registering under a name that is present replaces the
    instance and keeps the list of names as it is; a new name goes to the end
    of the list; and the list of names never has a duplicate. *)
Theorem X17_registry_names (service_name : string) (service_instance : value)
    (self : ServiceRegistry.t) :
  let r := ServiceRegistry.register_service service_name service_instance self in
  (ServiceRegistry.service_exists service_name self = true →
     dict_keys (ServiceRegistry.get_all_services r.2)
     = dict_keys (ServiceRegistry.get_all_services self))
  ∧ (ServiceRegistry.service_exists service_name self = false →
     dict_keys (ServiceRegistry.get_all_services r.2)
     = dict_keys (ServiceRegistry.get_all_services self) ++ [service_name])
  ∧ (NoDup (dict_keys (ServiceRegistry.get_all_services self)) →
     NoDup (dict_keys (ServiceRegistry.get_all_services r.2))).
Proof.
  intros r. subst r.
  unfold ServiceRegistry.service_exists, ServiceRegistry.get_all_services. simpl.
  rewrite dict_keys_setitem. split_and!.
  - intros H%bool_decide_eq_true. rewrite decide_True; [done|]. by apply dict_get_is_Some.
  - intros H%bool_decide_eq_false. rewrite decide_False; [done|]. by rewrite <-dict_get_is_Some.
  - intros Hd. destruct (decide _) as [Hin|Hnin]; [done|].
    apply NoDup_app. split_and!; [done| |apply NoDup_singleton].
    intros x Hx ->%list_elem_of_singleton. done.
Qed.

Lemma X17_registry_names_witness :
  let reg := (ServiceRegistry.register_service "health" (PyObj "HealthService" 4)
                (ServiceRegistry.__init__ example_container)).2 in
  dict_keys (ServiceRegistry.get_all_services
               (ServiceRegistry.register_service "metrics" PyNone reg).2)
    = ["health"; "metrics"]
  ∧ dict_keys (ServiceRegistry.get_all_services
                 (ServiceRegistry.register_service "health" PyNone reg).2)
    = ["health"].
Proof.
  intros reg. split.
  - apply (X17_registry_names "metrics" PyNone reg). reflexivity.
  - apply (X17_registry_names "health" PyNone reg). reflexivity.
Defined.

(** X18. [ServiceRegistry.clear] forgets every name but does not touch the
    container: an instance that was registered is unknown to the registry
    after [clear], and the container still resolves its class to it. *)
Theorem X18_clear_keeps_container (service_name : string) (service_instance : value)
    (self : ServiceRegistry.t) (w : world) :
  let r := ServiceRegistry.clear
             (ServiceRegistry.register_service service_name service_instance self).2 in
  (∀ n, ServiceRegistry.service_exists n r = false
        ∧ ServiceRegistry.get_service n r = PyNone)
  ∧ ServiceRegistry.get_all_services r = []
  ∧ Container.resolve (type_name service_instance) (ServiceRegistry._container r) w
    = (Ok service_instance, ServiceRegistry._container r, w).
Proof.
  intros r. subst r. split_and!; [done..|].
  apply resolve_instance. simpl. apply lookup_insert_eq.
Qed.

(** ** ServiceDiscovery *)

Lemma default_register_false rm s module_path st :
  (ServiceDiscovery._register_service_class (ServiceDiscovery.__init__ rm)
     s module_path st).1 = false →
  registry (ServiceDiscovery._register_service_class (ServiceDiscovery.__init__ rm)
              s module_path st).2 = registry st.
Proof.
  unfold ServiceDiscovery._register_service_class.
  destruct (construct s (the_world st)) as [[obj|e] w1]; [|done].
  destruct (allocate w1) as [a w2].
  destruct (initialize s obj w2) as [[[b|e] obj'] w3]; [destruct b|]; [|done..].
  destruct (_service_name s) as [n|]; [|done]. simpl.
  destruct (InterfaceRegistrationManager.register_service_interfaces _ _ _ _) as [ok k].
  destruct (RouteManager.setup_routes rm _ _ _ _ _) as [k' w4]. done.
Qed.

Lemma default_register_classes_false rm l module_path st :
  (ServiceDiscovery.register_service_classes (ServiceDiscovery.__init__ rm)
     l module_path st).1 = false →
  ∃ before s after st1,
    l = before ++ s :: after
    ∧ ServiceDiscovery.register_service_classes (ServiceDiscovery.__init__ rm)
        before module_path st = (true, st1)
    ∧ (ServiceDiscovery._register_service_class (ServiceDiscovery.__init__ rm)
         s module_path st1).1 = false
    ∧ registry (ServiceDiscovery.register_service_classes (ServiceDiscovery.__init__ rm)
                  l module_path st).2 = registry st1.
Proof.
  revert st. induction l as [|s l IH]; intros st; simpl; [done|].
  pose proof (default_register_false rm s module_path st) as Hf.
  destruct (ServiceDiscovery._register_service_class _ s module_path st) as [[] st'] eqn:E;
    simpl in *.
  - intros H. destruct (IH st' H) as (before & s' & after & st1 & -> & Hb & Hs & Hr).
    exists (s :: before), s', after, st1. simpl. rewrite E. simpl. by rewrite Hb.
  - intros _. exists [], s, l, st. simpl. rewrite E. split_and!; [done..|]. by apply Hf.
Qed.

(** X19. A failure leaves no trace of the service that failed.  With the
    default pipeline, when discovery returns false the registry (names and
    container) is exactly as the classes registered before the failing one
    left it; and when the import of the service module raises anything but
    an [ImportError], discovery returns false and nothing at all has
    changed. *)
Theorem X19_failure_registers_nothing (rm : RouteManager.t) (env : import_env)
    (module_path : string) (st : state) :
  (∀ m, env !! (module_path +:+ "." +:+ ServiceConstants.SERVICE_MODULE_NAME)
          = Some (Imported m) →
        (auto_discover_services env rm module_path st).1 = false →
        ∃ before s after st1,
          BaseServiceDetector.get_service_classes m = before ++ s :: after
          ∧ ServiceDiscovery.register_service_classes (ServiceDiscovery.__init__ rm)
              before module_path st = (true, st1)
          ∧ registry (auto_discover_services env rm module_path st).2 = registry st1)
  ∧ (∀ e, env !! (module_path +:+ "." +:+ ServiceConstants.SERVICE_MODULE_NAME)
            = Some (ImportRaises e) →
          is_ImportError e = false →
          auto_discover_services env rm module_path st = (false, st)).
Proof.
  unfold auto_discover_services, ServiceDiscovery.discover_and_register_services. split.
  - intros m Hm. rewrite (load_service_module_present _ _ _ Hm). simpl. intros Hf.
    destruct (default_register_classes_false rm _ module_path st Hf)
      as (before & s & after & st1 & Hl & Hb & _ & Hr).
    by exists before, s, after, st1.
  - intros e He Hi. unfold ServiceDiscovery._load_service_module, import_module.
    by rewrite He, Hi.
Qed.

Lemma X19_failure_registers_nothing_witness :
  registry (auto_discover_services example_env no_routes "features.broken"
              initial_state).2 = registry initial_state
  ∧ auto_discover_services
      (<["features.bad.service" := ImportRaises (ValueError "bad settings")]> example_env)
      no_routes "features.bad" initial_state
    = (false, initial_state).
Proof.
  split.
  - destruct (X19_failure_registers_nothing no_routes example_env "features.broken"
                initial_state) as [H _].
    destruct (H broken_module) as (before & s & after & st1 & Hl & Hb & ->);
      [reflexivity | reflexivity |].
    destruct before as [|s0 [|s1 before]]; [|discriminate Hl..].
    simpl in Hb. by injection Hb as <-.
  - eapply (X19_failure_registers_nothing no_routes); reflexivity.
Defined.

Lemma register_class_true self s module_path st st' :
  ServiceDiscovery._register_service_class self s module_path st = (true, st') →
  ∃ n a obj,
    _service_name s = Some n
    ∧ ServiceRegistry._services (registry st')
      = dict_setitem n (PyObj (__name__ (cls_type s)) a)
          (ServiceRegistry._services (registry st))
    ∧ objects st' = <[a := obj]> (objects st)
    ∧ (∀ hook, initialize s = BaseService.initialize hook →
               BaseService.is_initialized obj = true).
Proof.
  unfold ServiceDiscovery._register_service_class.
  destruct (construct s (the_world st)) as [[obj|e] w1]; [|done].
  destruct (allocate w1) as [a w2].
  destruct (initialize s obj w2) as [[[b|e] obj'] w3] eqn:Ei; [destruct b|]; [|done..].
  destruct (_service_name s) as [n|]; [|done]. simpl.
  destruct (ServiceDiscovery._interface_manager self _ _ _) as [[ok|e] k]; [|done].
  destruct (RouteManager.setup_routes _ _ _ _ _ _) as [k' w4].
  intros [= <-]. exists n, a, obj'. simpl. split_and!; [done..|].
  intros hook Hh. rewrite Hh in Ei.
  destruct (initialize_cases hook obj w2) as [(e & w' & _ & H)|(u & w' & _ & H)];
    rewrite H in Ei; by simplify_eq.
Qed.

Lemma register_class_keeps_names self s module_path st n :
  ServiceRegistry.service_exists n (registry st) = true →
  ServiceRegistry.service_exists n
    (registry (ServiceDiscovery._register_service_class self s module_path st).2) = true.
Proof.
  unfold ServiceRegistry.service_exists. rewrite !bool_decide_eq_true. intros H.
  unfold ServiceDiscovery._register_service_class.
  destruct (construct s (the_world st)) as [[obj|e] w1]; [|done].
  destruct (allocate w1) as [a w2].
  destruct (initialize s obj w2) as [[[b|e] obj'] w3]; [destruct b|]; [|done..].
  destruct (_service_name s) as [n'|]; [|done]. simpl.
  assert (is_Some (dict_get n (dict_setitem n' (PyObj (__name__ (cls_type s)) a)
                                 (ServiceRegistry._services (registry st))))) as H'.
  { destruct (decide (n' = n)) as [->|Hne].
    - rewrite dict_get_setitem. eauto.
    - by rewrite dict_get_setitem_ne. }
  destruct (ServiceDiscovery._interface_manager self _ _ _) as [[ok|e] k]; [|done].
  by destruct (RouteManager.setup_routes _ _ _ _ _ _) as [k' w4].
Qed.

Lemma register_classes_keep_names self l module_path st n :
  ServiceRegistry.service_exists n (registry st) = true →
  ServiceRegistry.service_exists n
    (registry (ServiceDiscovery.register_service_classes self l module_path st).2) = true.
Proof.
  revert st. induction l as [|s l IH]; intros st H; [done|]. simpl.
  pose proof (register_class_keeps_names self s module_path st n H) as H'.
  destruct (ServiceDiscovery._register_service_class self s module_path st) as [[] st'];
    simpl in *; [by apply IH | done].
Qed.

(** X20. A service class is registered only once it is initialised: when
    [_register_service_class] returns true, the class has a service name, the
    registry holds the new instance under that name and is otherwise as
    before, and for a class that keeps the [initialize] of [BaseService] the
    instance is initialised. *)
Theorem X20_registered_means_initialized (self : ServiceDiscovery.t) (s : pyclass)
    (module_path : string) (st st' : state) :
  ServiceDiscovery._register_service_class self s module_path st = (true, st') →
  ∃ n a obj,
    _service_name s = Some n
    ∧ ServiceRegistry.get_service n (registry st') = PyObj (__name__ (cls_type s)) a
    ∧ objects st' !! a = Some obj
    ∧ (∀ other, other ≠ n →
         ServiceRegistry.get_service other (registry st')
         = ServiceRegistry.get_service other (registry st))
    ∧ (∀ hook, initialize s = BaseService.initialize hook →
               BaseService.is_initialized obj = true).
Proof.
  intros H. destruct (register_class_true _ _ _ _ _ H) as (n & a & obj & Hn & Hs & Ho & Hi).
  exists n, a, obj. unfold ServiceRegistry.get_service. rewrite Hs, Ho, dict_get_setitem.
  split_and!; [done..|apply lookup_insert_eq| |done].
  intros other Hne. by rewrite dict_get_setitem_ne.
Qed.

Lemma X20_registered_means_initialized_witness :
  ∃ n a obj,
    _service_name HealthService_class = Some n
    ∧ ServiceRegistry.get_service n
        (registry (ServiceDiscovery._register_service_class
                     (ServiceDiscovery.__init__ no_routes) HealthService_class
                     "features.health" initial_state).2)
      = PyObj "HealthService" a
    ∧ objects (ServiceDiscovery._register_service_class
                 (ServiceDiscovery.__init__ no_routes) HealthService_class
                 "features.health" initial_state).2 !! a = Some obj
    ∧ BaseService.is_initialized obj = true.
Proof.
  destruct (X20_registered_means_initialized (ServiceDiscovery.__init__ no_routes)
              HealthService_class "features.health" initial_state
              (ServiceDiscovery._register_service_class
                 (ServiceDiscovery.__init__ no_routes) HealthService_class
                 "features.health" initial_state).2)
    as (n & a & obj & Hn & Hg & Ho & _ & Hi); [reflexivity|].
  exists n, a, obj. split_and!; [done..|].
  by apply (Hi BaseService._initialize_specific).
Defined.

(** X21. Discovery only adds: a service name that is in the registry before
    [discover_and_register_services] is still there afterwards, whether the
    call succeeds or not; and when the default pipeline returns true, every
    service class it detected is in the registry under its service name. *)
Theorem X21_discovery_only_adds (env : import_env) (module_path : string) (st : state) :
  (∀ self n,
      ServiceRegistry.service_exists n (registry st) = true →
      ServiceRegistry.service_exists n
        (registry (ServiceDiscovery.discover_and_register_services
                     self env module_path st).2) = true)
  ∧ (∀ rm m s,
      env !! (module_path +:+ "." +:+ ServiceConstants.SERVICE_MODULE_NAME)
        = Some (Imported m) →
      (auto_discover_services env rm module_path st).1 = true →
      s ∈ BaseServiceDetector.get_service_classes m →
      ∃ n, _service_name s = Some n
           ∧ ServiceRegistry.service_exists n
               (registry (auto_discover_services env rm module_path st).2) = true).
Proof.
  split.
  - intros self n H. unfold ServiceDiscovery.discover_and_register_services.
    destruct (ServiceDiscovery._load_service_module env module_path) as [[m|]|e]; [|done..].
    destruct (ServiceDiscovery._service_detector self m) as [l|e]; [|done].
    by apply register_classes_keep_names.
  - intros rm m s Hm. unfold auto_discover_services,
      ServiceDiscovery.discover_and_register_services.
    rewrite (load_service_module_present _ _ _ Hm). simpl.
    generalize (BaseServiceDetector.get_service_classes m) as l. intros l. revert st.
    induction l as [|s0 l IH]; intros st Hok Hs; [by apply elem_of_nil in Hs|].
    simpl in *.
    destruct (ServiceDiscovery._register_service_class _ s0 module_path st)
      as [[] st'] eqn:E; [|done]. simpl in *.
    apply elem_of_cons in Hs as [->|Hs]; [|by apply IH].
    destruct (register_class_true _ _ _ _ _ E) as (n & a & obj & Hn & Hsv & _).
    exists n. split; [done|]. apply register_classes_keep_names.
    unfold ServiceRegistry.service_exists. rewrite Hsv, dict_get_setitem.
    apply bool_decide_eq_true. eauto.
Qed.

Lemma X21_discovery_only_adds_witness :
  let st := (auto_discover_services example_env no_routes "features.health"
               initial_state).2 in
  ServiceRegistry.service_exists "health"
    (registry (auto_discover_services example_env no_routes "features.demo" st).2) = true.
Proof.
  intros st.
  apply (X21_discovery_only_adds example_env "features.demo" st). reflexivity.
Defined.

(** ** FeatureManager and Application *)

Lemma register_features_dom env rm l self st self1 st1 :
  FeatureManager.register_features env rm l self st = (true, self1, st1) →
  dom (FeatureManager._features self1)
  = dom (FeatureManager._features self) ∪ list_to_set l.*1.
Proof.
  revert self st. induction l as [|[n p] l IH]; intros self st; simpl.
  - intros [= <- _]. by rewrite (right_id_L ∅ (∪)).
  - destruct (auto_discover_services env rm p st) as [[] st']; [|done].
    intros H. rewrite (IH _ _ H). simpl. rewrite dom_insert_L.
    by rewrite (assoc_L (∪)), (comm_L (∪) {[n]}).
Qed.

(** X22. When [register_features] returns true, the recorded features are
    those recorded before together with the ones of the list: every feature
    of the list has an active record whose module path is one the list gives
    for it, the records of other features are untouched, and the status
    counts them all and lists the names of the service registry. *)
Theorem X22_all_features_recorded (env : import_env) (rm : RouteManager.t)
    (feature_modules : list (string * string)) (self self1 : FeatureManager.t)
    (st st1 : state) :
  FeatureManager.register_features env rm feature_modules self st = (true, self1, st1) →
  dom (FeatureManager._features self1)
    = dom (FeatureManager._features self) ∪ list_to_set feature_modules.*1
  ∧ (∀ n p, (n, p) ∈ feature_modules →
       ∃ f, FeatureManager._features self1 !! n = Some f
            ∧ FeatureManager.status f = "active"
            ∧ (n, FeatureManager.module_path f) ∈ feature_modules)
  ∧ (∀ n, n ∉ feature_modules.*1 →
       FeatureManager._features self1 !! n = FeatureManager._features self !! n)
  ∧ FeatureManager.total_features (FeatureManager.get_features_status self1 st1)
    = size (dom (FeatureManager._features self) ∪ list_to_set feature_modules.*1)
  ∧ FeatureManager.services (FeatureManager.get_features_status self1 st1)
    = dict_keys (ServiceRegistry._services (registry st1)).
Proof.
  intros H. pose proof (register_features_dom _ _ _ _ _ _ _ H) as Hd. split_and!.
  - done.
  - by eapply register_features_recorded.
  - intros n Hn. pose proof (register_features_frame env rm feature_modules self st n Hn) as Hf.
    by rewrite H in Hf.
  - simpl. by rewrite <-Hd, size_dom.
  - done.
Qed.

Lemma X22_all_features_recorded_witness :
  let r := FeatureManager.register_features example_env no_routes
             [("health", "features.health"); ("settings", "features.settings")]
             FeatureManager.__init__ initial_state in
  FeatureManager.total_features (FeatureManager.get_features_status r.1.2 r.2) = 2
  ∧ FeatureManager.services (FeatureManager.get_features_status r.1.2 r.2) = ["health"].
Proof.
  intros r.
  destruct (X22_all_features_recorded example_env no_routes
              [("health", "features.health"); ("settings", "features.settings")]
              FeatureManager.__init__ r.1.2 initial_state r.2)
    as (_ & _ & _ & Ht & Hs); [reflexivity|].
  split; [rewrite Ht | rewrite Hs]; reflexivity.
Defined.

(** X23. [register_features] returns false only because the discovery of
    one feature of the list returned false: the list splits at that feature,
    the features before it were all registered, and the feature records and
    the state are the ones left by them and by the failed discovery. *)
Theorem X23_false_means_a_discovery_failed (env : import_env) (rm : RouteManager.t)
    (feature_modules : list (string * string)) (self self1 : FeatureManager.t)
    (st st1 : state) :
  FeatureManager.register_features env rm feature_modules self st = (false, self1, st1) →
  ∃ before name path after st0,
    feature_modules = before ++ (name, path) :: after
    ∧ FeatureManager.register_features env rm before self st = (true, self1, st0)
    ∧ auto_discover_services env rm path st0 = (false, st1).
Proof.
  revert self st. induction feature_modules as [|[n p] l IH]; intros self st; simpl; [done|].
  destruct (auto_discover_services env rm p st) as [[] st'] eqn:E.
  - intros H. destruct (IH _ _ H) as (before & name & path & after & st0 & -> & Hb & Hf).
    exists ((n, p) :: before), name, path, after, st0. simpl. rewrite E. done.
  - intros [= <- <-]. by exists [], n, p, l, st.
Qed.

Lemma X23_false_means_a_discovery_failed_witness :
  ∃ before name path after st0,
    [("health", "features.health"); ("broken", "features.broken")]
    = before ++ (name, path) :: after
    ∧ (FeatureManager.register_features example_env no_routes before
         FeatureManager.__init__ initial_state).1.1 = true
    ∧ (auto_discover_services example_env no_routes path st0).1 = false.
Proof.
  pose (r := FeatureManager.register_features example_env no_routes
               [("health", "features.health"); ("broken", "features.broken")]
               FeatureManager.__init__ initial_state).
  destruct (X23_false_means_a_discovery_failed example_env no_routes
              [("health", "features.health"); ("broken", "features.broken")]
              FeatureManager.__init__ r.1.2 initial_state r.2)
    as (before & name & path & after & st0 & Hl & Hb & Hf); [reflexivity|].
  exists before, name, path, after, st0. by rewrite Hb, Hf.
Defined.

(** X24. A start that fails changes nothing in the application object: the
    flag keeps its value, so an application that was initialised stays
    initialised.  When the registration of the features fails, the start
    fails without calling the Eel configurator, and what the registration
    did before failing stays done. *)
Theorem X24_failed_start (env : import_env) (rm : RouteManager.t)
    (configure_eel : value → callable unit)
    (feature_modules : option (list (string * string)))
    (self : Application.t) (fm : FeatureManager.t) (st : state) :
  let r := Application.start env rm configure_eel feature_modules self fm st in
  (r.1.1.1 = false → r.1.1.2 = self)
  ∧ (∀ f fs fm' st',
       feature_modules = Some (f :: fs) →
       FeatureManager.register_features env rm (f :: fs) fm st = (false, fm', st') →
       r = (false, self, fm', st')).
Proof.
  intros r. subst r. unfold Application.start, Application.configure_and_flag. split.
  - destruct feature_modules as [[|f fs]|].
    + by destruct (configure_eel _ _) as [[[]|e] w'].
    + destruct (FeatureManager.register_features env rm (f :: fs) fm st) as [[[] fm'] st'];
        simpl; [|done].
      by destruct (configure_eel _ _) as [[[]|e] w'].
    + by destruct (configure_eel _ _) as [[[]|e] w'].
  - intros f fs fm' st' -> H. by rewrite H.
Qed.

Lemma X24_failed_start_witness :
  let app := {| Application._settings := PyObj "AppSettings" 0;
                Application._is_initialized := true |} in
  let r := Application.start example_env no_routes (λ _ w, (Ok (), w))
             (Some [("broken", "features.broken")]) app FeatureManager.__init__
             initial_state in
  r.1.1.1 = false ∧ Application.is_initialized r.1.1.2 = true.
Proof.
  intros app r.
  destruct (X24_failed_start example_env no_routes (λ _ w, (Ok (), w))
              (Some [("broken", "features.broken")]) app FeatureManager.__init__
              initial_state) as [H _].
  split; [reflexivity|]. fold r in H. by rewrite H.
Defined.

(** X25. [start] returns true exactly when the features, if any were given,
    were all registered and the Eel configurator returned; the application
    is then initialised.  Without features ([None] or an empty list) the
    feature manager and the registry are not touched. *)
Theorem X25_successful_start (env : import_env) (rm : RouteManager.t)
    (configure_eel : value → callable unit)
    (feature_modules : option (list (string * string)))
    (self : Application.t) (fm : FeatureManager.t) (st : state) :
  let r := Application.start env rm configure_eel feature_modules self fm st in
  let features := default [] feature_modules in
  let registered := FeatureManager.register_features env rm features fm st in
  (r.1.1.1 = true
   ↔ registered.1.1 = true
     ∧ ∃ u w', configure_eel (Application._settings self) (the_world registered.2)
               = (Ok u, w'))
  ∧ (r.1.1.1 = true →
     Application.is_initialized r.1.1.2 = true
     ∧ Application._settings r.1.1.2 = Application._settings self)
  ∧ (features = [] → r.1.2 = fm ∧ registry r.2 = registry st ∧ objects r.2 = objects st).
Proof.
  intros r features registered. subst r features registered.
  unfold Application.start, Application.configure_and_flag.
  destruct feature_modules as [[|f fs]|]; simpl default.
  - simpl. destruct (configure_eel _ _) as [[u|e] w']; simpl; split_and!; try done.
    + split; eauto.
    + split; [done|]. by intros [_ (? & ? & ?)].
  - destruct (FeatureManager.register_features env rm (f :: fs) fm st) as [[[] fm'] st'];
      simpl.
    + destruct (configure_eel _ _) as [[u|e] w']; simpl; split_and!; try done.
      * split; eauto.
      * split; [done|]. by intros [_ (? & ? & ?)].
    + split_and!; try done. split; [done|]. by intros [? _].
  - simpl. destruct (configure_eel _ _) as [[u|e] w']; simpl; split_and!; try done.
    + split; eauto.
    + split; [done|]. by intros [_ (? & ? & ?)].
Qed.

Lemma X25_successful_start_witness :
  let r := Application.start example_env no_routes (λ _ w, (Ok (), w))
             (Some [("health", "features.health")])
             (Application.__init__ (PyObj "AppSettings" 0)) FeatureManager.__init__
             initial_state in
  r.1.1.1 = true ∧ Application.is_initialized r.1.1.2 = true.
Proof.
  intros r.
  destruct (X25_successful_start example_env no_routes (λ _ w, (Ok (), w))
              (Some [("health", "features.health")])
              (Application.__init__ (PyObj "AppSettings" 0)) FeatureManager.__init__
              initial_state) as (Hiff & Hinit & _).
  assert (r.1.1.1 = true) as Hr.
  { apply Hiff. split; [reflexivity|]. eexists _, _. reflexivity. }
  split; [exact Hr|]. by apply Hinit.
Defined.

(** ** Service injection into routes *)

(** X26. [_inject_service] hands out only services that are initialised:
    a service it returns is in its cache, and one that it had to resolve was
    resolved by the container to an object whose [is_initialized] is true.
    A cached service is returned without asking the container.  A failed
    injection returns [None] and caches nothing, so that a later call tries
    again. *)
Theorem X26_injection (is_initialized : value → result bool)
    (service_type service_name : string) (self : BaseRoutes.t)
    (container : Container.t) (w : world) :
  let r := BaseRoutes._inject_service is_initialized service_type service_name
             self container w in
  (∀ v, BaseRoutes._services self !! service_name = Some v →
        r = (v, self, container, w))
  ∧ (BaseRoutes._services self !! service_name = None →
     r.1.1.1 ≠ PyNone →
     is_initialized r.1.1.1 = Ok true
     ∧ (Container.resolve service_type container w).1.1 = Ok r.1.1.1
     ∧ BaseRoutes._services r.1.1.2 !! service_name = Some r.1.1.1)
  ∧ (BaseRoutes._services self !! service_name = None →
     is_initialized PyNone ≠ Ok true →
     r.1.1.1 = PyNone → r.1.1.2 = self).
Proof.
  intros r. subst r. unfold BaseRoutes._inject_service. split_and!.
  - intros v Hv. by rewrite (contains_Some _ _ _ Hv), (getitem_Some _ _ _ Hv).
  - intros Hn. rewrite (contains_None _ _ Hn). simpl.
    destruct (Container.resolve service_type container w) as [[[v|e] k] w']; [|done].
    destruct (is_initialized v) as [[]|e] eqn:E; simpl; [|done..].
    intros _. split_and!; [done..|]. apply lookup_insert_eq.
  - intros Hn Hnone. rewrite (contains_None _ _ Hn). simpl.
    destruct (Container.resolve service_type container w) as [[[v|e] k] w']; [|done].
    destruct (is_initialized v) as [[]|e] eqn:E; simpl; [|done..].
    intros ->. done.
Qed.

Lemma X26_injection_witness :
  let oracle := λ v, match v with PyObj _ _ => Ok true | PyNone => Raise (ValueError "") end in
  let cached := {| BaseRoutes._services := {[ "health" := PyObj "HealthService" 3 ]} |} in
  BaseRoutes._inject_service oracle "IHealthService" "health" cached example_container w0
    = (PyObj "HealthService" 3, cached, example_container, w0)
  ∧ is_Some (BaseRoutes._services
               (BaseRoutes._inject_service oracle "IHealthService" "health"
                  {| BaseRoutes._services := ∅ |} example_container w0).1.1.2
             !! "health").
Proof.
  intros oracle cached. split.
  - apply (X26_injection oracle "IHealthService" "health" cached example_container w0).
    reflexivity.
  - destruct (X26_injection oracle "IHealthService" "health"
                {| BaseRoutes._services := ∅ |} example_container w0) as (_ & H & _).
    destruct H as (_ & _ & ->); [reflexivity | discriminate | eauto].
Defined.
